(** * tfcmt: the GitHub notifier ([pkg/notifier/github/notify.go])

    A shallow embedding of [NotifyService.Notify], [getEmbeddedComment],
    [NotifyService.updateLabels] and [NotifyService.removeResultLabels],
    and the properties of the notification flow and of the label
    reconciliation proved over it.

    Conventions of the embedding.
    - A Go [int] is a [Z]; the code only compares and copies the integers
      it handles (exit code, pull-request number, HTTP status).
    - A Go [error] is the text given by its [Error()] method; a nil error
      is [None].
    - A Go call returning [(value, err)] is a pair: the code reads the
      value also when the error is set (line 176), so both are kept.
    - [*github.Response] is a pointer: [option Response].  Reading
      [resp.StatusCode] through a nil pointer panics; a run that panics
      has [res = None].
    - Every call to a collaborator (label client, commits, comment poster,
      template) is written to the run's [calls], with what it returned.
    - logrus output is not part of the model. *)

From Stdlib Require Import ZArith String.
From stdpp Require Import base option list strings gmap.

Open Scope Z_scope.
Open Scope list_scope.

(** ** Data *)

Definition error := string.

(** [github.Label], read through the nil-safe getters [GetName] and
    [GetColor] (the empty string for a nil field). *)
Module Label.
Record t := mk { GetName : string; GetColor : string }.
End Label.

(** [github.Response], of which the code reads [StatusCode] only. *)
Module Response.
Record t := mk { StatusCode : Z }.
End Response.

Definition StatusNotFound : Z := 404.

(** [terraform.ParseResult]. *)
Module ParseResult.
Record t := mk {
  Result : string;
  ChangedResult : string;
  OutsideTerraform : string;
  Warning : string;
  HasAddOrUpdateOnly : bool;
  HasDestroy : bool;
  HasNoChanges : bool;
  HasPlanError : bool;
  HasParseError : bool;
  ExitCode : Z;
  Error : option error;
  CreatedResources : list string;
  UpdatedResources : list string;
  DeletedResources : list string;
  ReplacedResources : list string
}.

(** [result.ExitCode = code] *)
Definition setExitCode (r : t) (code : Z) : t :=
  mk (Result r) (ChangedResult r) (OutsideTerraform r) (Warning r)
     (HasAddOrUpdateOnly r) (HasDestroy r) (HasNoChanges r) (HasPlanError r)
     (HasParseError r) code (Error r)
     (CreatedResources r) (UpdatedResources r) (DeletedResources r)
     (ReplacedResources r).
End ParseResult.

(** [notifier.ParamExec]. *)
Module ParamExec.
Record t := mk {
  Stdout : string;
  Stderr : string;
  CombinedOutput : string;
  CIName : string;
  ExitCode : Z
}.
End ParamExec.

(** [terraform.CommonTemplate], the value bag handed to the template. *)
Module CommonTemplate.
Record t := mk {
  Result : string;
  ChangedResult : string;
  ChangeOutsideTerraform : string;
  Warning : string;
  HasDestroy : bool;
  Link : string;
  UseRawOutput : bool;
  Vars : gmap string string;
  Templates : gmap string string;
  Stdout : string;
  Stderr : string;
  CombinedOutput : string;
  ExitCode : Z;
  ErrorMessages : list string;
  CreatedResources : list string;
  UpdatedResources : list string;
  DeletedResources : list string;
  ReplacedResources : list string
}.
End CommonTemplate.

(** A template object: [SetValue] stores the bag, [Execute] renders it. *)
Module Template.
Record t := mk { Execute : CommonTemplate.t → string * option error }.
End Template.

(** The parser is an interface value; [Notify] inspects its dynamic type. *)
Inductive ParserKind := PlanParser | ApplyParser | OtherParser.

Module Parser.
Record t := mk { kind : ParserKind; Parse : string → ParseResult.t }.
End Parser.

Module PullRequest.
Record t := mk { Revision : string; Number : Z }.

(** Modelled from the spec: [PullRequest.IsNumber] is not in the source
    file; "a pull-request number is configured" is a number other than
    the zero value. *)
Definition IsNumber (pr : t) : bool := negb (Number pr =? 0)%Z.
End PullRequest.

Module ResultLabels.
Record t := mk {
  AddOrUpdateLabel : string;
  DestroyLabel : string;
  NoChangesLabel : string;
  PlanErrorLabel : string;
  AddOrUpdateLabelColor : string;
  DestroyLabelColor : string;
  NoChangesLabelColor : string;
  PlanErrorLabelColor : string
}.

(** Modelled from the spec: [HasAnyLabelDefined] is not in the source
    file; "at least one result label is configured". *)
Definition HasAnyLabelDefined (r : t) : bool :=
  negb (String.eqb (AddOrUpdateLabel r) "")
  || negb (String.eqb (DestroyLabel r) "")
  || negb (String.eqb (NoChangesLabel r) "")
  || negb (String.eqb (PlanErrorLabel r) "").

(** Modelled from the spec: [IsResultLabel] is not in the source file;
    "a label whose name belongs to the known result-label set", the
    configured names of the four outcomes (an unset name is no label). *)
Definition IsResultLabel (r : t) (label : string) : bool :=
  negb (String.eqb label "")
  && (String.eqb label (AddOrUpdateLabel r)
      || String.eqb label (DestroyLabel r)
      || String.eqb label (NoChangesLabel r)
      || String.eqb label (PlanErrorLabel r)).
End ResultLabels.

Module Config.
Record t := mk {
  PR : PullRequest.t;
  CI : string;
  Parser : Parser.t;
  UseRawOutput : bool;
  Template : Template.t;
  ParseErrorTemplate : Template.t;
  ResultLabels : ResultLabels.t;
  Vars : gmap string string;
  EmbeddedVarNames : list string;
  Templates : gmap string string
}.

Definition setPRNumber (c : t) (n : Z) : t :=
  mk (PullRequest.mk (PullRequest.Revision (PR c)) n) (CI c) (Parser c)
     (UseRawOutput c) (Template c) (ParseErrorTemplate c) (ResultLabels c)
     (Vars c) (EmbeddedVarNames c) (Templates c).

Definition setPRRevision (c : t) (rev : string) : t :=
  mk (PullRequest.mk rev (PullRequest.Number (PR c))) (CI c) (Parser c)
     (UseRawOutput c) (Template c) (ParseErrorTemplate c) (ResultLabels c)
     (Vars c) (EmbeddedVarNames c) (Templates c).
End Config.

Module PostOptions.
Record t := mk { Number : Z; Revision : string }.
End PostOptions.

(** A value of the [map[string]interface{}] given to the metadata
    library. *)
Inductive Value :=
| VString (s : string)
| VInt (n : Z)
| VVars (m : gmap string string).

(** ** Calls to the collaborators, with what each returned *)

Inductive Call :=
| IssuesListLabels_call (number : Z)
    (labels : list Label.t) (err : option error)
| IssuesAddLabels_call (number : Z) (names : list string)
    (labels : list Label.t) (err : option error)
| IssuesRemoveLabel_call (number : Z) (name : string)
    (resp : option Response.t) (err : option error)
| IssuesUpdateLabel_call (name color : string) (err : option error)
| MergedPRNumber_call (revision : string) (number : Z) (err : option error)
| CommitsList_call (revision : string)
    (commits : list string) (err : option error)
| Execute_call (template : Template.t) (value : CommonTemplate.t)
    (body : string) (err : option error)
| CommentPost_call (body : string) (opt : PostOptions.t) (err : option error).

Definition is_post (c : Call) : bool :=
  match c with CommentPost_call _ _ _ => true | _ => false end.

Definition is_execute (c : Call) : bool :=
  match c with Execute_call _ _ _ _ => true | _ => false end.

Definition is_remove (c : Call) : bool :=
  match c with IssuesRemoveLabel_call _ _ _ _ => true | _ => false end.

Definition is_add (c : Call) : bool :=
  match c with IssuesAddLabels_call _ _ _ _ => true | _ => false end.

Definition is_update (c : Call) : bool :=
  match c with IssuesUpdateLabel_call _ _ _ => true | _ => false end.


(** A removal that returned a nil response together with an error:
    reading the status code of that response panics (line 232). *)
Definition nil_response_panic (calls : list Call) : Prop :=
  ∃ n name e, IssuesRemoveLabel_call n name None (Some e) ∈ calls.

(** ** Runs: world passing, a call log, and panics *)

Module Run.
Record t (W A : Type) := mk {
  res : option A;          (* [None]: the goroutine panicked *)
  world : W;
  calls : list Call
}.
Arguments mk {W A}.
Arguments res {W A}.
Arguments world {W A}.
Arguments calls {W A}.

(** The run [r], after the calls [cs]. *)
Definition prepend {W A} (cs : list Call) (r : t W A) : t W A :=
  mk (res r) (world r) (cs ++ calls r).
End Run.

Arguments Run.prepend : simpl never.

Section Monad.
Context {W : Type}.

Definition M (A : Type) : Type := W → Run.t W A.

Definition ret {A} (a : A) : M A :=
  fun w => Run.mk (Some a) w [].

Definition panic {A} : M A :=
  fun w => Run.mk None w [].

Definition bind {A B} (m : M A) (f : A → M B) : M B :=
  fun w =>
    let r := m w in
    match Run.res r with
    | Some a =>
        let r' := f a (Run.world r) in
        Run.mk (Run.res r') (Run.world r') (Run.calls r ++ Run.calls r')
    | None => Run.mk None (Run.world r) (Run.calls r)
    end.

(** One call to a collaborator: run it on the world, log it. *)
Definition call {A} (op : W → A * W) (ev : A → Call) : M A :=
  fun w => let '(a, w') := op w in Run.mk (Some a) w' [ev a].
End Monad.

Notation "x <- m ;; k" := (bind m (fun x => k))
  (at level 100, m at next level, right associativity).

(** ** The collaborators of the notifier *)

Section Notifier.
Context {W : Type}.

(** The label calls of the [API] interface that this file uses.  The
    [*github.Response] of a call is kept only where the code reads it. *)
Record API := {
  IssuesListLabels : Z → W → (list Label.t * option error) * W;
  IssuesAddLabels :
    Z → list string → W → (list Label.t * option error) * W;
  IssuesRemoveLabel :
    Z → string → W → (option Response.t * option error) * W;
  IssuesUpdateLabel : string → string → W → option error * W
}.

(** [CommitsService]: [lastOne] reads no state. *)
Record CommitsService := {
  MergedPRNumber : string → W → (Z * option error) * W;
  CommitsList : string → W → (list string * option error) * W;
  lastOne : list string → string → string * option error
}.

Record CommentService := {
  Post : string → PostOptions.t → W → option error * W
}.

(** The metadata library: [SetCIEnv] reads the process environment and
    adds the fields of the CI provider to the map; [Convert] serialises
    the map. *)
Record Metadata := {
  SetCIEnv :
    string → gmap string Value → W → gmap string Value * option error;
  Convert : gmap string Value → string * option error
}.

Record Client := {
  ClientConfig : Config.t;
  ClientAPI : API;
  Commits : CommitsService;
  Comment : CommentService;
  metadata : Metadata
}.

(** [NotifyService] is [service], a struct holding the client. *)
Definition NotifyService := Client.

(** *** [getEmbeddedComment] (lines 106-134) *)

Definition embeddedVars (cfg : Config.t) : gmap string string :=
  foldl (fun vars name => <[name := default "" (Config.Vars cfg !! name)]> vars)
        ∅ (Config.EmbeddedVarNames cfg).

Definition embeddedData (cfg : Config.t) (isPlan : bool)
  : gmap string Value :=
  let data : gmap string Value :=
    <["PRNumber" := VInt (PullRequest.Number (Config.PR cfg))]>
    (<["SHA1" := VString (PullRequest.Revision (Config.PR cfg))]>
     (<["Vars" := VVars (embeddedVars cfg)]>
      (<["Program" := VString "tfcmt"]> ∅))) in
  let target := default "" (Config.Vars cfg !! "target") in
  let data :=
    if String.eqb target "" then data
    else <["Target" := VString target]> data in
  if isPlan then <["Command" := VString "plan"]> data
  else <["Command" := VString "apply"]> data.

Definition getEmbeddedComment (md : Metadata) (cfg : Config.t)
    (ciName : string) (isPlan : bool) (w : W) : string * option error :=
  match SetCIEnv md ciName (embeddedData cfg isPlan) w with
  | (_, Some err) => ("", Some err)
  | (data, None) =>
      match Convert md data with
      | (_, Some err) => ("", Some err)
      | (embeddedComment, None) => (embeddedComment, None)
      end
  end.

(** *** [removeResultLabels] (lines 215-239) *)

(** The loop of lines 223-236 over the listed labels; [labelColor] is
    the local variable of that name. *)
Fixpoint removeLoop (g : NotifyService) (labels : list Label.t)
    (label labelColor : string) : M (string * option error) :=
  let cfg := ClientConfig g in
  match labels with
  | [] => ret (labelColor, None)
  | l :: rest =>
      let labelText := Label.GetName l in
      if String.eqb labelText label then
        removeLoop g rest label (Label.GetColor l)
      else if ResultLabels.IsResultLabel (Config.ResultLabels cfg) labelText
      then
        r <- call (IssuesRemoveLabel (ClientAPI g)
                     (PullRequest.Number (Config.PR cfg)) labelText)
                  (fun r => IssuesRemoveLabel_call
                              (PullRequest.Number (Config.PR cfg)) labelText
                              (fst r) (snd r)) ;;
        match snd r with
        | None => removeLoop g rest label labelColor
        | Some err =>
            match fst r with
            | None => panic        (* resp.StatusCode on a nil resp *)
            | Some resp =>
                if (Response.StatusCode resp =? StatusNotFound)%Z
                then removeLoop g rest label labelColor
                else ret (labelColor, Some err)
            end
        end
      else removeLoop g rest label labelColor
  end.

Definition removeResultLabels (g : NotifyService) (label : string)
  : M (string * option error) :=
  let cfg := ClientConfig g in
  r <- call (IssuesListLabels (ClientAPI g)
               (PullRequest.Number (Config.PR cfg)))
            (fun r => IssuesListLabels_call
                        (PullRequest.Number (Config.PR cfg))
                        (fst r) (snd r)) ;;
  match snd r with
  | Some err => ret ("", Some err)
  | None => removeLoop g (fst r) label ""
  end.
(** *** [updateLabels] (lines 136-213) *)

(** The [switch] of lines 143-156: [(labelToAdd, labelColor)]. *)
Definition labelDecision (rl : ResultLabels.t) (result : ParseResult.t)
  : string * string :=
  if ParseResult.HasAddOrUpdateOnly result then
    (ResultLabels.AddOrUpdateLabel rl, ResultLabels.AddOrUpdateLabelColor rl)
  else if ParseResult.HasDestroy result then
    (ResultLabels.DestroyLabel rl, ResultLabels.DestroyLabelColor rl)
  else if ParseResult.HasNoChanges result then
    (ResultLabels.NoChangesLabel rl, ResultLabels.NoChangesLabelColor rl)
  else if ParseResult.HasPlanError result then
    (ResultLabels.PlanErrorLabel rl, ResultLabels.PlanErrorLabelColor rl)
  else ("", "").

(** The color update and its error message, written twice in the source
    (lines 189-196 and 203-210). *)
Definition updateLabelColor (g : NotifyService)
    (labelToAdd labelColor : string) (errMsgs : list string)
  : M (list string) :=
  err <- call (IssuesUpdateLabel (ClientAPI g) labelToAdd labelColor)
              (IssuesUpdateLabel_call labelToAdd labelColor) ;;
  match err with
  | Some e =>
      ret (errMsgs ++ ["update a label color (name: " +:+ labelToAdd
                         +:+ ", color: " +:+ labelColor +:+ "): " +:+ e])
  | None => ret errMsgs
  end.

(** The loop of lines 186-199 over the labels returned by the add. *)
Fixpoint setColorLoop (g : NotifyService) (labels : list Label.t)
    (labelToAdd labelColor : string) (errMsgs : list string)
  : M (list string) :=
  match labels with
  | [] => ret errMsgs
  | label :: rest =>
      if String.eqb labelToAdd (Label.GetName label)
         && negb (String.eqb (Label.GetColor label) labelColor)
      then
        errMsgs' <- updateLabelColor g labelToAdd labelColor errMsgs ;;
        setColorLoop g rest labelToAdd labelColor errMsgs'
      else setColorLoop g rest labelToAdd labelColor errMsgs
  end.

(** Lines 171-212: what follows the removal of the stale labels. *)
Definition ensureLabel (g : NotifyService)
    (labelToAdd labelColor currentLabelColor : string)
    (errMsgs : list string) : M (list string) :=
  let cfg := ClientConfig g in
  if String.eqb labelToAdd "" then ret errMsgs
  else if String.eqb currentLabelColor "" then
    r <- call (IssuesAddLabels (ClientAPI g)
                 (PullRequest.Number (Config.PR cfg)) [labelToAdd])
              (fun r => IssuesAddLabels_call
                          (PullRequest.Number (Config.PR cfg)) [labelToAdd]
                          (fst r) (snd r)) ;;
    let errMsgs :=
      match snd r with
      | Some e => errMsgs ++ ["add a label " +:+ labelToAdd +:+ ": " +:+ e]
      | None => errMsgs
      end in
    if negb (String.eqb labelColor "") then
      setColorLoop g (fst r) labelToAdd labelColor errMsgs
    else ret errMsgs
  else if negb (String.eqb labelColor "")
          && negb (String.eqb labelColor currentLabelColor)
  then updateLabelColor g labelToAdd labelColor errMsgs
  else ret errMsgs.

Definition updateLabels (g : NotifyService) (result : ParseResult.t)
  : M (list string) :=
  let cfg := ClientConfig g in
  let labelToAdd := fst (labelDecision (Config.ResultLabels cfg) result) in
  let labelColor := snd (labelDecision (Config.ResultLabels cfg) result) in
  let errMsgs : list string := [] in
  r <- removeResultLabels g labelToAdd ;;
  let currentLabelColor := fst r in
  let errMsgs :=
    match snd r with
    | Some err => errMsgs ++ ["remove labels: " +:+ err]
    | None => errMsgs
    end in
  ensureLabel g labelToAdd labelColor currentLabelColor errMsgs.

(** *** [Notify] (lines 19-104) *)

(** The value bag of lines 45-64. *)
Definition commonTemplate (cfg : Config.t) (param : ParamExec.t)
    (result : ParseResult.t) (errMsgs : list string) : CommonTemplate.t :=
  CommonTemplate.mk
    (ParseResult.Result result)
    (ParseResult.ChangedResult result)
    (ParseResult.OutsideTerraform result)
    (ParseResult.Warning result)
    (ParseResult.HasDestroy result)
    (Config.CI cfg)
    (Config.UseRawOutput cfg)
    (Config.Vars cfg)
    (Config.Templates cfg)
    (ParamExec.Stdout param)
    (ParamExec.Stderr param)
    (ParamExec.CombinedOutput param)
    (ParamExec.ExitCode param)
    errMsgs
    (ParseResult.CreatedResources result)
    (ParseResult.UpdatedResources result)
    (ParseResult.DeletedResources result)
    (ParseResult.ReplacedResources result).

Definition isPlanParser (p : Parser.t) : bool :=
  match Parser.kind p with PlanParser => true | _ => false end.

Definition isApplyParser (p : Parser.t) : bool :=
  match Parser.kind p with ApplyParser => true | _ => false end.

(** Lines 69-81, on the local copy [cfg] of the configuration: the
    copy as the block leaves it, or the fatal error of line 76. *)
Definition resolvePullRequest (g : NotifyService) (cfg : Config.t)
  : M (Config.t * option error) :=
  let revision := PullRequest.Revision (Config.PR cfg) in
  if isApplyParser (Config.Parser (ClientConfig g)) then
    r <- call (MergedPRNumber (Commits g) revision)
              (fun r => MergedPRNumber_call revision (fst r) (snd r)) ;;
    match snd r with
    | None => ret (Config.setPRNumber cfg (fst r), None)
    | Some _ =>
        if negb (PullRequest.IsNumber (Config.PR cfg)) then
          cs <- call (CommitsList (Commits g) revision)
                     (fun r => CommitsList_call revision (fst r) (snd r)) ;;
          match snd cs with
          | Some err => ret (cfg, Some err)
          | None =>
              let lastRevision := fst (lastOne (Commits g) (fst cs) revision) in
              ret (Config.setPRRevision cfg lastRevision, None)
          end
        else ret (cfg, None)
    end
  else ret (cfg, None).

(** Lines 83-103: the embedded comment and the post. *)
Definition postComment (g : NotifyService) (cfg : Config.t)
    (param : ParamExec.t) (result : ParseResult.t) (isPlan : bool)
    (body : string) : M (Z * option error) :=
  e <- (fun w => Run.mk
          (Some (getEmbeddedComment (metadata g) cfg
                   (ParamExec.CIName param) isPlan w)) w []) ;;
  match snd e with
  | Some err => ret (ParseResult.ExitCode result, Some err)
  | None =>
      let body := body +:+ fst e in
      let opt := PostOptions.mk (PullRequest.Number (Config.PR cfg))
                                (PullRequest.Revision (Config.PR cfg)) in
      err <- call (Post (Comment g) body opt) (CommentPost_call body opt) ;;
      match err with
      | Some err => ret (ParseResult.ExitCode result, Some err)
      | None => ret (ParseResult.ExitCode result, None)
      end
  end.

(** Lines 38-103, with the template chosen at lines 22-36. *)
Definition notifyWith (g : NotifyService) (param : ParamExec.t)
    (result : ParseResult.t) (template : Template.t)
  : M (Z * option error) :=
  let cfg := ClientConfig g in
  let parser := Config.Parser cfg in
  let isPlan := isPlanParser parser in
  errMsgs <-
    (if isPlan
        && PullRequest.IsNumber (Config.PR cfg)
        && ResultLabels.HasAnyLabelDefined (Config.ResultLabels cfg)
     then msgs <- updateLabels g result ;; ret ([] ++ msgs)
     else ret []) ;;
  let value := commonTemplate cfg param result errMsgs in
  r <- call (fun w => (Template.Execute template value, w))
            (fun r => Execute_call template value (fst r) (snd r)) ;;
  match snd r with
  | Some err => ret (ParseResult.ExitCode result, Some err)
  | None =>
      let body := fst r in
      c <- resolvePullRequest g cfg ;;
      match snd c with
      | Some err => ret (ParseResult.ExitCode result, Some err)
      | None => postComment g (fst c) param result isPlan body
      end
  end.

(** Lines 25-26: the parse result, with the exit code of the caller. *)
Definition parseOutput (cfg : Config.t) (param : ParamExec.t)
  : ParseResult.t :=
  ParseResult.setExitCode
    (Parser.Parse (Config.Parser cfg) (ParamExec.CombinedOutput param))
    (ParamExec.ExitCode param).

Definition Notify (g : NotifyService) (param : ParamExec.t)
  : M (Z * option error) :=
  let cfg := ClientConfig g in
  let template := Config.Template cfg in
  let result := parseOutput cfg param in
  if ParseResult.HasParseError result then
    notifyWith g param result (Config.ParseErrorTemplate cfg)
  else
    match ParseResult.Error result with
    | Some _ => ret (ParseResult.ExitCode result, ParseResult.Error result)
    | None =>
        if String.eqb (ParseResult.Result result) "" then
          ret (ParseResult.ExitCode result, ParseResult.Error result)
        else notifyWith g param result template
    end.
End Notifier.

Arguments API : clear implicits.
Arguments CommitsService : clear implicits.
Arguments CommentService : clear implicits.
Arguments Metadata : clear implicits.
Arguments Client : clear implicits.
Arguments NotifyService : clear implicits.

Arguments getEmbeddedComment : simpl never.
Arguments removeResultLabels : simpl never.
Arguments updateLabelColor : simpl never.
Arguments ensureLabel : simpl never.
Arguments updateLabels : simpl never.
Arguments resolvePullRequest : simpl never.
Arguments postComment : simpl never.
Arguments notifyWith : simpl never.

(** ** Reading the removal loop *)

(** A call that is no failed removal: a removal that failed with a
    not-found response counts, as line 232 has it. *)
Definition removal_succeeded (c : Call) : bool :=
  match c with
  | IssuesRemoveLabel_call _ _ _ None => true
  | IssuesRemoveLabel_call _ _ (Some resp) (Some _) =>
      (Response.StatusCode resp =? StatusNotFound)%Z
  | IssuesRemoveLabel_call _ _ None (Some _) => false
  | _ => true
  end.

(** The labels that the removals of a run name, in order. *)
Definition removed_names (calls : list Call) : list string :=
  omap (fun c => match c with
                 | IssuesRemoveLabel_call _ name _ _ => Some name
                 | _ => None
                 end) calls.

(** The stale result labels of a listing: the result labels other than
    the target. *)
Definition is_stale (rl : ResultLabels.t) (label : string) (l : Label.t)
  : bool :=
  negb (String.eqb (Label.GetName l) label)
  && ResultLabels.IsResultLabel rl (Label.GetName l).

Definition staleNames (rl : ResultLabels.t) (label : string)
    (labels : list Label.t) : list string :=
  map Label.GetName (List.filter (is_stale rl label) labels).

(** The color that a listing gives the target: that of its last entry
    of that name, [labelColor] when it has none. *)
Definition listedColor (label : string) (labels : list Label.t)
    (labelColor : string) : string :=
  foldl (fun color l =>
           if String.eqb (Label.GetName l) label then Label.GetColor l
           else color) labelColor labels.

(** What a run [r] of the removal loop over [labels], entered with
    [labelColor], tells by its result: it went through the whole listing
    ([Some (color, None)]), stopped at a removal that failed with a
    response other than not-found ([Some (color, Some e)]), or panicked on
    a removal that failed with a nil response ([None]). *)
Definition removeLoop_post {W : Type} (g : NotifyService W)
    (labels : list Label.t) (label labelColor : string)
    (r : Run.t W (string * option error)) : Prop :=
  let rl := Config.ResultLabels (ClientConfig g) in
  let n := PullRequest.Number (Config.PR (ClientConfig g)) in
  match Run.res r with
  | Some (color, None) =>
      forallb removal_succeeded (Run.calls r) = true
      ∧ removed_names (Run.calls r) = staleNames rl label labels
      ∧ color = listedColor label labels labelColor
  | Some (color, Some e) =>
      ∃ pre l post removals resp,
        labels = pre ++ l :: post
        ∧ is_stale rl label l = true
        ∧ Run.calls r =
            removals ++ [IssuesRemoveLabel_call n (Label.GetName l)
                           (Some resp) (Some e)]
        ∧ Response.StatusCode resp ≠ StatusNotFound
        ∧ forallb removal_succeeded removals = true
        ∧ removed_names removals = staleNames rl label pre
        ∧ color = listedColor label pre labelColor
  | None =>
      ∃ pre l post removals e,
        labels = pre ++ l :: post
        ∧ is_stale rl label l = true
        ∧ Run.calls r =
            removals ++ [IssuesRemoveLabel_call n (Label.GetName l)
                           None (Some e)]
        ∧ forallb removal_succeeded removals = true
        ∧ removed_names removals = staleNames rl label pre
  end.

(** The failures after the parse that make [Notify] return an error [e]:
    the template, the commit listing, the embedded comment, the post. *)
Definition fatal_failure {W : Type} (g : NotifyService W)
    (param : ParamExec.t) (e : error) (calls : list Call) : Prop :=
  (∃ t value body, Execute_call t value body (Some e) ∈ calls)
  ∨ (∃ revision commits, CommitsList_call revision commits (Some e) ∈ calls)
  ∨ (∃ cfg isPlan w,
       (getEmbeddedComment (metadata g) cfg (ParamExec.CIName param)
                           isPlan w).2 = Some e)
  ∨ (∃ body opt, CommentPost_call body opt (Some e) ∈ calls).

(** ** Reading the calls of a run *)

(** A call to the label client. *)
Definition is_label_call (c : Call) : bool :=
  match c with
  | IssuesListLabels_call _ _ _ => true
  | IssuesAddLabels_call _ _ _ _ => true
  | IssuesRemoveLabel_call _ _ _ _ => true
  | IssuesUpdateLabel_call _ _ _ => true
  | _ => false
  end.

(** A call to the commits service. *)
Definition is_commits_call (c : Call) : bool :=
  match c with
  | MergedPRNumber_call _ _ _ => true
  | CommitsList_call _ _ _ => true
  | _ => false
  end.

(** A label call that returned an error which the reconciliation does
    not pass over: any error of a listing, an add or a color update, and
    the error of a removal unless its response says not-found. *)
Definition call_failed (c : Call) : bool :=
  match c with
  | IssuesListLabels_call _ _ (Some _) => true
  | IssuesAddLabels_call _ _ _ (Some _) => true
  | IssuesUpdateLabel_call _ _ (Some _) => true
  | IssuesRemoveLabel_call _ _ _ _ => negb (removal_succeeded c)
  | _ => false
  end.

(** The number of failed label calls of a run. *)
Definition failures (calls : list Call) : nat :=
  length (List.filter call_failed calls).

(** A call of [Notify] whose error ends the run: the rendering of the
    template, the listing of the commits, the post. *)
Definition fails_with (e : error) (c : Call) : Prop :=
  match c with
  | Execute_call _ _ _ (Some e') => e' = e
  | CommitsList_call _ _ (Some e') => e' = e
  | CommentPost_call _ _ (Some e') => e' = e
  | _ => False
  end.

(** [is_stale], on the name of a label. *)
Definition stale_name (rl : ResultLabels.t) (label name : string) : bool :=
  negb (String.eqb name label) && ResultLabels.IsResultLabel rl name.

(** A label of the answer to the add that has the name of the chosen
    label and another color than the configured one (lines 187-188). *)
Definition needs_color (labelToAdd labelColor : string) (l : Label.t)
  : bool :=
  String.eqb labelToAdd (Label.GetName l)
  && negb (String.eqb (Label.GetColor l) labelColor).

(** ** A reference label client

    The labels of one repository, each with its color, and the names
    attached to one pull request; every call succeeds, but the removal
    of a label that is not attached, which answers not-found, and the
    color update of a label that the repository does not have.  Adding a
    name that the repository does not have creates the label with the
    default color. *)

Module LabelStore.
Record t := mk {
  repo : gmap string string;
  attached : list string
}.

Definition defaultColor : string := "ededed".

Definition colorOf (s : t) (name : string) : string :=
  default "" (repo s !! name).

Definition isAttached (s : t) (name : string) : bool :=
  existsb (String.eqb name) (attached s).

Definition labels (s : t) : list Label.t :=
  map (fun name => Label.mk name (colorOf s name)) (attached s).

Definition addLabel (s : t) (name : string) : t :=
  mk (match repo s !! name with
      | Some _ => repo s
      | None => <[name := defaultColor]> (repo s)
      end)
     (if isAttached s name then attached s else attached s ++ [name]).

Definition removeLabel (s : t) (name : string) : t :=
  mk (repo s) (List.filter (fun n => negb (String.eqb n name)) (attached s)).

Definition updateLabel (s : t) (name color : string) : t :=
  mk (<[name := color]> (repo s)) (attached s).

Definition api : API t :=
  {| IssuesListLabels := fun _ s => ((labels s, None), s);
     IssuesAddLabels :=
       fun _ names s =>
         let s' := foldl addLabel s names in ((labels s', None), s');
     IssuesRemoveLabel :=
       fun _ name s =>
         (if isAttached s name then (Some (Response.mk 200), None)
          else (Some (Response.mk 404), Some "404 Label does not exist"),
          removeLabel s name);
     IssuesUpdateLabel :=
       fun name color s =>
         match repo s !! name with
         | Some _ => (None, updateLabel s name color)
         | None => (Some "404 Not Found", s)
         end |}.

(** The repository does not hold the label [name] with an empty color. *)
Definition colored (s : t) (name : string) : Prop :=
  repo s !! name ≠ Some "".

(** A pull request that needs no repair for the target [target] with
    the configured color [targetColor]: it carries no stale result label
    and, when a target is chosen, it carries the target with a color,
    the configured one if one is configured. *)
Definition settled (rl : ResultLabels.t) (target targetColor : string)
    (s : t) : Prop :=
  Forall (fun name =>
            negb (String.eqb name target) && ResultLabels.IsResultLabel rl name
            = false) (attached s)
  ∧ (target = ""
     ∨ (isAttached s target = true
        ∧ colorOf s target ≠ ""
        ∧ (targetColor = "" ∨ targetColor = colorOf s target))).
End LabelStore.

(** ** Fixtures: small clients with fixed answers *)

Module Fixture.
Definition okMetadata : Metadata unit :=
  {| SetCIEnv := fun _ data _ => (data, None);
     Convert := fun _ => ("<!-- github-comment: {} -->", None) |}.

Definition noMergedPR : CommitsService unit :=
  {| MergedPRNumber := fun _ w => ((0, Some "no merged pull request"), w);
     CommitsList := fun _ w => (([], None), w);
     lastOne := fun _ revision => (revision, None) |}.

Definition okComment : CommentService unit :=
  {| Post := fun _ _ w => (None, w) |}.

(** A label client that lists [listed], answers every removal with
    [removed] and accepts every add and color update. *)
Definition api (listed : list Label.t)
    (removed : option Response.t * option error) : API unit :=
  {| IssuesListLabels := fun _ w => ((listed, None), w);
     IssuesAddLabels :=
       fun _ names w => ((map (fun n => Label.mk n "ededed") names, None), w);
     IssuesRemoveLabel := fun _ _ w => (removed, w);
     IssuesUpdateLabel := fun _ _ w => (None, w) |}.

Definition template : Template.t :=
  Template.mk (fun v => ("## Plan result: " +:+ CommonTemplate.Result v, None)).

Definition parseErrorTemplate : Template.t :=
  Template.mk (fun v => ("## It failed to parse the result", None)).

Definition labels : ResultLabels.t :=
  ResultLabels.mk "add-or-update" "destroy" "no-changes" "plan-error"
                  "1d76db" "d93f0b" "0e8a16" "".

Definition noLabels : ResultLabels.t :=
  ResultLabels.mk "" "" "" "" "" "" "" "".

Definition emptyResult : ParseResult.t :=
  ParseResult.mk "" "" "" "" false false false false false 0 None [] [] [] [].

Definition config (kind : ParserKind) (parse : string → ParseResult.t)
    (pr : PullRequest.t) (rl : ResultLabels.t) : Config.t :=
  Config.mk pr "https://ci.example/build/1" (Parser.mk kind parse) false
            template parseErrorTemplate rl ∅ [] ∅.

Definition client (cfg : Config.t) (a : API unit) : Client unit :=
  {| ClientConfig := cfg; ClientAPI := a; Commits := noMergedPR;
     Comment := okComment; metadata := okMetadata |}.

Definition param (exitCode : Z) : ParamExec.t :=
  ParamExec.mk "out" "" "out" "github-actions" exitCode.

(** What the plan parser returns when it finds no plan in the output. *)
Definition parseError : ParseResult.t :=
  ParseResult.mk "" "" "" "" false false false false true 1
                 (Some "cannot parse plan result") [] [] [] [].

(** A parse error that keeps some result text. *)
Definition parseErrorWithText : ParseResult.t :=
  ParseResult.mk "Error: Invalid reference" "" "" "" false false false false
                 true 1 (Some "cannot parse plan result") [] [] [] [].

(** A plan error: an error and the text of it, no parse error. *)
Definition planError : ParseResult.t :=
  ParseResult.mk "Error: Invalid reference" "" "" "" false false false true
                 false 1 (Some "terraform plan failed") [] [] [] [].

Definition noChanges : ParseResult.t :=
  ParseResult.mk "No changes. Infrastructure is up-to-date." "" "" "" false
                 false true false false 0 None [] [] [] [].

Definition addAndDestroy : ParseResult.t :=
  ParseResult.mk "Plan: 1 to add, 0 to change, 1 to destroy." "" "" "" true
                 true false false false 0 None
                 ["null_resource.a"] [] ["null_resource.b"] [].

Definition pr42 : PullRequest.t := PullRequest.mk "abc123" 42.
Definition revisionOnly : PullRequest.t := PullRequest.mk "abc123" 0.

Definition ok200 : option Response.t * option error :=
  (Some (Response.mk 200), None).

(** A plan run on pull request 42 with no result label configured, whose
    parser answers [r] and whose collaborators all succeed. *)
Definition planClient (r : ParseResult.t) : Client unit :=
  client (config PlanParser (fun _ => r) pr42 noLabels) (api [] ok200).

(** A plan run on pull request 42 with the four result labels
    configured, against the label client [api listed removed]. *)
Definition labelClient (listed : list Label.t)
    (removed : option Response.t * option error) : Client unit :=
  client (config PlanParser (fun _ => noChanges) pr42 labels)
         (api listed removed).

Definition notFound404 : option Response.t * option error :=
  (Some (Response.mk 404), Some "404 Label does not exist").

Definition serverError500 : option Response.t * option error :=
  (Some (Response.mk 500), Some "500 Internal Server Error").

(** A pull request that carries two stale result labels and a label of
    its own. *)
Definition staleListing : list Label.t :=
  [Label.mk "destroy" "d93f0b"; Label.mk "unrelated" "cccccc";
   Label.mk "plan-error" "b60205"].


Definition applied : ParseResult.t :=
  ParseResult.mk "Apply complete! Resources: 1 added, 0 changed, 0 destroyed."
                 "" "" "" false false false false false 0 None [] [] [] [].

(** The commits of a revision, the newest first; [lastOne] is taken to
    pick the first. *)
Definition twoCommits : CommitsService unit :=
  {| MergedPRNumber := fun _ w => ((0, Some "no merged pull request"), w);
     CommitsList := fun _ w => ((["c2c2c2"; "c1c1c1"], None), w);
     lastOne := fun commits _ => (default "" (head commits), None) |}.

(** An apply run on a revision, with no pull-request number. *)
Definition applyClient : Client unit :=
  {| ClientConfig := config ApplyParser (fun _ => applied) revisionOnly noLabels;
     ClientAPI := api [] ok200;
     Commits := twoCommits;
     Comment := okComment;
     metadata := okMetadata |}.

(** A label client whose listing fails; every other call succeeds. *)
Definition unlistable : API unit :=
  {| IssuesListLabels := fun _ w => (([], Some "503 Service Unavailable"), w);
     IssuesAddLabels :=
       fun _ names w => ((map (fun n => Label.mk n "ededed") names, None), w);
     IssuesRemoveLabel := fun _ _ w => (ok200, w);
     IssuesUpdateLabel := fun _ _ w => (None, w) |}.

Definition unlistableClient : Client unit :=
  client (config PlanParser (fun _ => noChanges) pr42 labels) unlistable.

(** A comment service that refuses the post. *)
Definition refusingComment : CommentService unit :=
  {| Post :=
       fun _ _ w => (Some "403 Resource not accessible by integration", w) |}.

Definition refusedClient : Client unit :=
  {| ClientConfig := config PlanParser (fun _ => noChanges) pr42 noLabels;
     ClientAPI := api [] ok200;
     Commits := noMergedPR;
     Comment := refusingComment;
     metadata := okMetadata |}.

(** A repository with two labels, both attached to the pull request:
    a stale result label and a label of the pull request's own. *)
Definition store : LabelStore.t :=
  LabelStore.mk (<["destroy" := "d93f0b"]> (<["unrelated" := "cccccc"]> ∅))
                ["destroy"; "unrelated"].

(** A plan run on pull request 42 with the four result labels
    configured, against the reference label client. *)
Definition storeClient : Client LabelStore.t :=
  {| ClientConfig := config PlanParser (fun _ => noChanges) pr42 labels;
     ClientAPI := LabelStore.api;
     Commits :=
       {| MergedPRNumber := fun _ w => ((0, Some "no merged pull request"), w);
          CommitsList := fun _ w => (([], None), w);
          lastOne := fun _ revision => (revision, None) |};
     Comment := {| Post := fun _ _ w => (None, w) |};
     metadata :=
       {| SetCIEnv := fun _ data _ => (data, None);
          Convert := fun _ => ("<!-- github-comment: {} -->", None) |} |}.

(** A metadata library that knows the fields of GitHub Actions only. *)
Definition strictMetadata : Metadata unit :=
  {| SetCIEnv :=
       fun ciName data _ =>
         if String.eqb ciName "github-actions" then (data, None)
         else (data, Some "unsupported CI platform");
     Convert := fun _ => ("<!-- github-comment: {} -->", None) |}.

(** A plan run on pull request 42, with no result label configured,
    whose metadata library is [strictMetadata]. *)
Definition strictClient : Client unit :=
  {| ClientConfig := config PlanParser (fun _ => noChanges) pr42 noLabels;
     ClientAPI := api [] ok200;
     Commits := noMergedPR;
     Comment := okComment;
     metadata := strictMetadata |}.

(** The parameters of a run on a CI platform other than GitHub Actions. *)
Definition paramOn (ciName : string) (exitCode : Z) : ParamExec.t :=
  ParamExec.mk "out" "" "out" ciName exitCode.


End Fixture.

(** ** Runs: elementary facts *)

Section RunFacts.
Context {W : Type}.

Lemma bind_res {A B} (m : M A) (f : A → M B) (w : W) :
  Run.res (bind m f w) =
    match Run.res (m w) with
    | Some a => Run.res (f a (Run.world (m w)))
    | None => None
    end.
Proof. unfold bind. by destruct (Run.res (m w)). Qed.

Lemma bind_calls {A B} (m : M A) (f : A → M B) (w : W) :
  Run.calls (bind m f w) =
    Run.calls (m w) ++
    match Run.res (m w) with
    | Some a => Run.calls (f a (Run.world (m w)))
    | None => []
    end.
Proof.
  unfold bind. destruct (Run.res (m w)); simpl; [done|].
  by rewrite app_nil_r.
Qed.

Lemma bind_world {A B} (m : M A) (f : A → M B) (w : W) :
  Run.world (bind m f w) =
    match Run.res (m w) with
    | Some a => Run.world (f a (Run.world (m w)))
    | None => Run.world (m w)
    end.
Proof. unfold bind. by destruct (Run.res (m w)). Qed.

Lemma call_res {A} (op : W → A * W) (ev : A → Call) (w : W) :
  Run.res (call op ev w) = Some (op w).1.
Proof. unfold call. by destruct (op w). Qed.

Lemma call_calls {A} (op : W → A * W) (ev : A → Call) (w : W) :
  Run.calls (call op ev w) = [ev (op w).1].
Proof. unfold call. by destruct (op w). Qed.

Lemma call_world {A} (op : W → A * W) (ev : A → Call) (w : W) :
  Run.world (call op ev w) = (op w).2.
Proof. unfold call. by destruct (op w). Qed.

Lemma bind_run {A B} (m : M A) (f : A → M B) (w : W) :
  bind m f w =
    match Run.res (m w) with
    | Some a => Run.prepend (Run.calls (m w)) (f a (Run.world (m w)))
    | None => Run.mk None (Run.world (m w)) (Run.calls (m w))
    end.
Proof. unfold bind. by destruct (Run.res (m w)). Qed.

Lemma call_run {A} (op : W → A * W) (ev : A → Call) (w : W) :
  call op ev w = Run.mk (Some (op w).1) (op w).2 [ev (op w).1].
Proof. unfold call. by destruct (op w). Qed.

Lemma prepend_prepend {A} (cs cs' : list Call) (r : Run.t W A) :
  Run.prepend cs (Run.prepend cs' r) = Run.prepend (cs ++ cs') r.
Proof. unfold Run.prepend. simpl. by rewrite app_assoc. Qed.

Lemma prepend_nil {A} (r : Run.t W A) : Run.prepend [] r = r.
Proof. by destruct r. Qed.

Lemma prepend_res {A} (cs : list Call) (r : Run.t W A) :
  Run.res (Run.prepend cs r) = Run.res r.
Proof. done. Qed.

Lemma prepend_world {A} (cs : list Call) (r : Run.t W A) :
  Run.world (Run.prepend cs r) = Run.world r.
Proof. done. Qed.

Lemma prepend_calls {A} (cs : list Call) (r : Run.t W A) :
  Run.calls (Run.prepend cs r) = cs ++ Run.calls r.
Proof. done. Qed.

Lemma prepend_mk {A} (cs cs' : list Call) (a : option A) (w : W) :
  Run.prepend cs (Run.mk a w cs') = Run.mk a w (cs ++ cs').
Proof. done. Qed.
End RunFacts.

Ltac run_simpl :=
  repeat first
    [ rewrite bind_res | rewrite bind_calls | rewrite bind_world
    | rewrite call_res | rewrite call_calls | rewrite call_world ];
  simpl.

Ltac run_cbn :=
  repeat first
    [ rewrite bind_res | rewrite bind_calls | rewrite bind_world
    | rewrite call_res | rewrite call_calls | rewrite call_world ];
  cbn.

Ltac run_step :=
  rewrite ?prepend_res, ?prepend_world, ?prepend_calls;
  cbn [Run.res Run.world Run.calls ret fst snd andb negb app].

Ltac run_simpl_in H :=
  repeat first
    [ rewrite bind_res in H | rewrite bind_calls in H | rewrite bind_world in H
    | rewrite call_res in H | rewrite call_calls in H
    | rewrite call_world in H ];
  simpl in H.

(** ** The decision table *)

Section LabelFacts.
Context {W : Type}.
Implicit Types (g : NotifyService W) (w : W).

(** Every call of the removal loop is a removal. *)
Lemma removeLoop_calls g labels label labelColor w :
  Forall (fun c => is_remove c = true)
         (Run.calls (removeLoop g labels label labelColor w)).
Proof.
  revert labelColor w.
  induction labels as [|l rest IH]; intros labelColor w; simpl.
  - constructor.
  - destruct (String.eqb _ label); [apply IH|].
    destruct (ResultLabels.IsResultLabel _ _); [|apply IH].
    run_simpl. constructor; [done|].
    destruct (snd _) as [e|]; [|apply IH].
    destruct (fst _) as [resp|]; [|constructor].
    destruct (_ =? _)%Z; [apply IH|constructor].
Qed.

Lemma removeResultLabels_calls g label w :
  Forall (fun c => is_add c = false ∧ is_update c = false)
         (Run.calls (removeResultLabels g label w)).
Proof.
  unfold removeResultLabels. run_simpl. constructor; [done|].
  destruct (snd _); [constructor|].
  eapply Forall_impl; [apply removeLoop_calls|].
  by intros []; simpl.
Qed.

Lemma updateLabelColor_calls g labelToAdd labelColor errMsgs w :
  ∃ err, Run.calls (updateLabelColor g labelToAdd labelColor errMsgs w)
         = [IssuesUpdateLabel_call labelToAdd labelColor err].
Proof.
  unfold updateLabelColor. run_simpl.
  exists (IssuesUpdateLabel (ClientAPI g) labelToAdd labelColor w).1.
  by destruct (IssuesUpdateLabel _ _ _ _).1.
Qed.

Lemma updateLabelColor_res g labelToAdd labelColor errMsgs w :
  is_Some (Run.res (updateLabelColor g labelToAdd labelColor errMsgs w)).
Proof.
  unfold updateLabelColor. run_simpl.
  by destruct (IssuesUpdateLabel _ _ _ _).1.
Qed.

Lemma setColorLoop_calls g labels labelToAdd labelColor errMsgs w :
  Forall (fun c => ∃ err, c = IssuesUpdateLabel_call labelToAdd labelColor err)
         (Run.calls (setColorLoop g labels labelToAdd labelColor errMsgs w)).
Proof.
  revert errMsgs w.
  induction labels as [|l rest IH]; intros errMsgs w; simpl.
  - constructor.
  - destruct (_ && _); [|apply IH].
    run_simpl.
    destruct (updateLabelColor_calls g labelToAdd labelColor errMsgs w)
      as [err ->].
    constructor; [by eexists|].
    destruct (Run.res _); [apply IH|constructor].
Qed.

Lemma setColorLoop_res g labels labelToAdd labelColor errMsgs w :
  is_Some (Run.res (setColorLoop g labels labelToAdd labelColor errMsgs w)).
Proof.
  revert errMsgs w.
  induction labels as [|l rest IH]; intros errMsgs w; simpl.
  - done.
  - destruct (_ && _); [|apply IH].
    run_simpl.
    destruct (updateLabelColor_res g labelToAdd labelColor errMsgs w)
      as [m ->].
    apply IH.
Qed.

(** What follows the removals only adds the chosen label and only sets
    the chosen color on it; it cannot panic. *)
Lemma ensureLabel_calls g labelToAdd labelColor current errMsgs w :
  Forall (fun c =>
            (∃ n ls err, c = IssuesAddLabels_call n [labelToAdd] ls err)
            ∨ (∃ err, c = IssuesUpdateLabel_call labelToAdd labelColor err))
         (Run.calls (ensureLabel g labelToAdd labelColor current errMsgs w)).
Proof.
  unfold ensureLabel.
  destruct (String.eqb labelToAdd ""); [constructor|].
  destruct (String.eqb current "").
  - run_simpl. constructor; [left; by do 3 eexists|].
    destruct (negb _); [|constructor].
    eapply Forall_impl; [apply setColorLoop_calls|].
    intros c [err ->]. right. by eexists.
  - destruct (_ && _); [|constructor].
    destruct (updateLabelColor_calls g labelToAdd labelColor errMsgs w)
      as [err ->].
    constructor; [right; by eexists|constructor].
Qed.

Lemma ensureLabel_res g labelToAdd labelColor current errMsgs w :
  is_Some (Run.res (ensureLabel g labelToAdd labelColor current errMsgs w)).
Proof.
  unfold ensureLabel.
  destruct (String.eqb labelToAdd ""); [done|].
  destruct (String.eqb current "").
  - run_simpl. destruct (negb _); [apply setColorLoop_res|done].
  - destruct (_ && _); [apply updateLabelColor_res|done].
Qed.

Lemma ensureLabel_none g labelColor current errMsgs w :
  ensureLabel g "" labelColor current errMsgs w = Run.mk (Some errMsgs) w [].
Proof. done. Qed.
End LabelFacts.

Section DecisionTable.
Context {W : Type}.
Implicit Types (g : NotifyService W) (w : W).

Lemma updateLabels_calls g result w :
  let rl := Config.ResultLabels (ClientConfig g) in
  Forall (fun c =>
            match c with
            | IssuesAddLabels_call _ names _ _ =>
                names = [(labelDecision rl result).1]
            | IssuesUpdateLabel_call name color _ =>
                name = (labelDecision rl result).1
                ∧ color = (labelDecision rl result).2
            | _ => True
            end)
         (Run.calls (updateLabels g result w)).
Proof.
  intros rl. unfold updateLabels. run_simpl.
  apply Forall_app. split.
  - eapply Forall_impl; [apply removeResultLabels_calls|].
    intros [] [??]; simpl in *; done.
  - destruct (Run.res _); [|constructor].
    eapply Forall_impl; [apply ensureLabel_calls|].
    intros c [(n & ls & err & ->)|(err & ->)]; done.
Qed.

Lemma updateLabels_no_label g result w :
  (labelDecision (Config.ResultLabels (ClientConfig g)) result).1 = "" →
  Forall (fun c => is_add c = false ∧ is_update c = false)
         (Run.calls (updateLabels g result w)).
Proof.
  intros Hnone. unfold updateLabels. run_simpl. rewrite Hnone.
  apply Forall_app. split; [apply removeResultLabels_calls|].
  destruct (Run.res _); constructor.
Qed.
End DecisionTable.

(** C5. The decision table of [updateLabels] is read top to bottom and
    the first row that matches wins: add-or-update, then destroy, then
    no-changes, then plan-error.  With [HasAddOrUpdateOnly] set the
    add-or-update label and its color are chosen whatever [HasDestroy]
    says; with no flag set no label is chosen and the run issues no add
    and no color update.  Every add of the run names the chosen label and
    every color update sets the chosen color on it. *)
Theorem label_decision_priority
    {W : Type} (g : NotifyService W) (result : ParseResult.t) (w : W) :
  let rl := Config.ResultLabels (ClientConfig g) in
  let calls := Run.calls (updateLabels g result w) in
  (ParseResult.HasAddOrUpdateOnly result = true →
   labelDecision rl result =
     (ResultLabels.AddOrUpdateLabel rl, ResultLabels.AddOrUpdateLabelColor rl))
  ∧ (ParseResult.HasAddOrUpdateOnly result = false →
     ParseResult.HasDestroy result = true →
     labelDecision rl result =
       (ResultLabels.DestroyLabel rl, ResultLabels.DestroyLabelColor rl))
  ∧ (ParseResult.HasAddOrUpdateOnly result = false →
     ParseResult.HasDestroy result = false →
     ParseResult.HasNoChanges result = true →
     labelDecision rl result =
       (ResultLabels.NoChangesLabel rl, ResultLabels.NoChangesLabelColor rl))
  ∧ (ParseResult.HasAddOrUpdateOnly result = false →
     ParseResult.HasDestroy result = false →
     ParseResult.HasNoChanges result = false →
     ParseResult.HasPlanError result = true →
     labelDecision rl result =
       (ResultLabels.PlanErrorLabel rl, ResultLabels.PlanErrorLabelColor rl))
  ∧ (ParseResult.HasAddOrUpdateOnly result = false →
     ParseResult.HasDestroy result = false →
     ParseResult.HasNoChanges result = false →
     ParseResult.HasPlanError result = false →
     labelDecision rl result = ("", "")
     ∧ Forall (fun c => is_add c = false ∧ is_update c = false) calls)
  ∧ Forall (fun c =>
              match c with
              | IssuesAddLabels_call _ names _ _ =>
                  names = [(labelDecision rl result).1]
              | IssuesUpdateLabel_call name color _ =>
                  name = (labelDecision rl result).1
                  ∧ color = (labelDecision rl result).2
              | _ => True
              end) calls.
Proof.
  intros rl calls. unfold labelDecision.
  split; [by intros ->|].
  split; [by intros -> ->|].
  split; [by intros -> -> ->|].
  split; [by intros -> -> -> ->|].
  split; [|apply updateLabels_calls].
  intros E1 E2 E3 E4. split; [by rewrite E1, E2, E3, E4|].
  apply updateLabels_no_label.
  unfold labelDecision. by rewrite E1, E2, E3, E4.
Qed.

Lemma label_decision_priority_witness :
  labelDecision Fixture.labels Fixture.addAndDestroy =
    ("add-or-update", "1d76db").
Proof.
  exact (proj1 (label_decision_priority
                  (Fixture.labelClient [] Fixture.ok200)
                  Fixture.addAndDestroy tt) eq_refl).
Defined.

(** ** The notification flow *)

Section NotifyFacts.
Context {W : Type}.
Implicit Types (g : NotifyService W) (w : W).

Lemma removeLoop_panic g labels label labelColor w :
  Run.res (removeLoop g labels label labelColor w) = None →
  nil_response_panic (Run.calls (removeLoop g labels label labelColor w)).
Proof.
  revert labelColor w.
  induction labels as [|l rest IH]; intros labelColor w; simpl; [done|].
  destruct (String.eqb _ label); [apply IH|].
  destruct (ResultLabels.IsResultLabel _ _); [|apply IH].
  run_simpl.
  destruct (IssuesRemoveLabel _ _ _ _) as [[resp err] w']; simpl.
  destruct err as [e|].
  - destruct resp as [resp|].
    + destruct (_ =? _)%Z; [|done].
      intros [n [name [e' Hin]]]%IH. exists n, name, e'. by right.
    + intros _. exists (PullRequest.Number (Config.PR (ClientConfig g))),
        (Label.GetName l), e. by left.
  - intros [n [name [e' Hin]]]%IH. exists n, name, e'. by right.
Qed.

Lemma updateLabels_panic g result w :
  Run.res (updateLabels g result w) = None →
  nil_response_panic (Run.calls (updateLabels g result w)).
Proof.
  unfold updateLabels, removeResultLabels. run_simpl.
  destruct (IssuesListLabels _ _ _) as [[labels err] w']; simpl.
  destruct err as [e|]; simpl.
  - intros Hnone. exfalso.
    match type of Hnone with
    | Run.res (ensureLabel ?g ?a ?b ?c ?d ?w) = None =>
        destruct (ensureLabel_res g a b c d w) as [? Hsome]; congruence
    end.
  - destruct (Run.res (removeLoop _ _ _ _ _)) as [r|] eqn:Hloop.
    + intros Hnone. exfalso.
      match type of Hnone with
      | Run.res (ensureLabel ?g ?a ?b ?c ?d ?w) = None =>
          destruct (ensureLabel_res g a b c d w) as [? Hsome]; congruence
      end.
    + intros _. apply removeLoop_panic in Hloop.
      destruct Hloop as [n [name [e Hin]]]. exists n, name, e.
      right. rewrite app_nil_r. done.
Qed.

Lemma updateLabels_label_calls g result w :
  Forall (fun c => is_execute c = false ∧ is_post c = false)
         (Run.calls (updateLabels g result w)).
Proof.
  unfold updateLabels. run_simpl. apply Forall_app. split.
  - unfold removeResultLabels. run_simpl. constructor; [done|].
    destruct (snd _); [constructor|].
    eapply Forall_impl; [apply removeLoop_calls|]. by intros [].
  - destruct (Run.res _); [|constructor].
    eapply Forall_impl; [apply ensureLabel_calls|].
    intros c [(n & ls & err & ->)|(err & ->)]; done.
Qed.
Lemma postComment_run g cfg param result isPlan body w :
  let r := postComment g cfg param result isPlan body w in
  (∃ err, Run.res r = Some (ParseResult.ExitCode result, err))
  ∧ Forall (fun c => is_execute c = false ∧ is_remove c = false) (Run.calls r)
  ∧ (∀ code, Run.res r = Some (code, None) →
     ∃ marker opt,
       Run.calls r = [CommentPost_call (body +:+ marker) opt None])
  ∧ (∀ code e, Run.res r = Some (code, Some e) →
     fatal_failure g param e (Run.calls r)).
Proof.
  unfold postComment. run_simpl.
  destruct (getEmbeddedComment _ _ _ _ _) as [marker [e|]] eqn:Hmarker; simpl.
  - split; [by eexists|]. split; [constructor|]. split; [by intros code [=]|].
    intros code e' [= _ <-]. right. right. left.
    exists cfg, isPlan, w. by rewrite Hmarker.
  - run_simpl. destruct (Post _ _ _ _) as [[e|] w']; simpl.
    + split; [by eexists|]. split; [by repeat constructor|].
      split; [by intros code [=]|].
      intros code e' [= _ <-]. right. right. right. do 2 eexists. by left.
    + split; [by eexists|]. split; [by repeat constructor|].
      split; [|by intros code e' [=]].
      intros code _. by do 2 eexists.
Qed.

Lemma resolvePullRequest_run g cfg w :
  let r := resolvePullRequest g cfg w in
  is_Some (Run.res r)
  ∧ Forall (fun c => is_execute c = false ∧ is_remove c = false
                     ∧ is_post c = false) (Run.calls r)
  ∧ (∀ cfg' e, Run.res r = Some (cfg', Some e) →
     ∃ revision commits,
       CommitsList_call revision commits (Some e) ∈ Run.calls r).
Proof.
  unfold resolvePullRequest.
  destruct (isApplyParser _); [|by split; [|split; [constructor|]]].
  run_simpl. destruct (MergedPRNumber _ _ _) as [[n [e|]] w']; simpl.
  - destruct (negb _); simpl.
    + run_simpl. destruct (CommitsList _ _ _) as [[cs [e'|]] w'']; simpl;
        (split; [done|split; [by repeat constructor|]]); [|done].
      intros cfg' e0 [= _ <-]. do 2 eexists. right. by left.
    + split; [done|split; [by repeat constructor|done]].
  - split; [done|split; [by repeat constructor|done]].
Qed.

Lemma fatal_failure_mono g param e (calls calls' : list Call) :
  (∀ c, c ∈ calls → c ∈ calls') →
  fatal_failure g param e calls → fatal_failure g param e calls'.
Proof.
  intros Hsub [(t & v & b & H)|[(r & cs & H)|[H|(b & o & H)]]].
  - left. exists t, v, b. by apply Hsub.
  - right. left. exists r, cs. by apply Hsub.
  - right. right. by left.
  - right. right. right. exists b, o. by apply Hsub.
Qed.

(** The flow from line 38 on, once the template is chosen. *)
Lemma notifyWith_run g param result template w :
  let r := notifyWith g param result template w in
  match Run.res r with
  | Some (code, _) => code = ParseResult.ExitCode result
  | None => nil_response_panic (Run.calls r)
  end
  ∧ Forall (fun c => match c with
                     | Execute_call t _ _ _ => t = template
                     | _ => True
                     end) (Run.calls r)
  ∧ (is_Some (Run.res r) →
     ∃ value body err, Execute_call template value body err ∈ Run.calls r)
  ∧ (∀ code, Run.res r = Some (code, None) →
     ∃ value body marker opt,
       Execute_call template value body None ∈ Run.calls r
       ∧ CommentPost_call (body +:+ marker) opt None ∈ Run.calls r)
  ∧ (∀ code e, Run.res r = Some (code, Some e) →
     fatal_failure g param e (Run.calls r)).
Proof.
  unfold notifyWith.
  match goal with
  | |- context [bind (if ?c then ?a else ?b)] =>
      set (labelling := if c then a else b)
  end.
  assert (Hlab : Forall (fun c => is_execute c = false ∧ is_post c = false)
                        (Run.calls (labelling w))
                 ∧ (Run.res (labelling w) = None →
                    nil_response_panic (Run.calls (labelling w)))).
  { subst labelling. destruct (_ && _); [|by split; [constructor|]].
    run_simpl. split.
    - apply Forall_app. split; [apply updateLabels_label_calls|].
      destruct (Run.res _); constructor.
    - destruct (Run.res (updateLabels g result w)) eqn:Hres; [done|].
      intros _. rewrite app_nil_r. by apply updateLabels_panic. }
  destruct Hlab as [Hcalls Hpanic].
  cbv zeta. run_cbn.
  destruct (Run.res (labelling w)) as [errMsgs|] eqn:Hres.
  2:{ rewrite app_nil_r. split; [by apply Hpanic|].
      split; [|split; [by intros []|done]].
      eapply Forall_impl; [apply Hcalls|]. by intros [] [??]. }
  run_cbn.
  set (value := commonTemplate _ _ _ _).
  destruct (Template.Execute template value) as [body [e|]] eqn:Hexec; cbn.
  { split; [done|]. split; [|split; [|split; [done|]]].
    - apply Forall_app. split; [|by repeat constructor].
      eapply Forall_impl; [apply Hcalls|]. by intros [] [??].
    - intros _. exists value, body, (Some e).
      apply elem_of_app. right. by left.
    - intros code e' [= _ <-]. left. exists template, value, body.
      apply elem_of_app. right. by left. }
  run_cbn.
  destruct (resolvePullRequest_run g (ClientConfig g) (Run.world (labelling w)))
    as ([c Hc] & Hrcalls & Hrfail).
  rewrite Hc. destruct c as [cfg' [e|]]; cbn.
  { split; [done|]. split; [|split; [|split; [done|]]].
    - apply Forall_app. split.
      + eapply Forall_impl; [apply Hcalls|]. by intros [] [??].
      + constructor; [done|]. rewrite app_nil_r.
        eapply Forall_impl; [apply Hrcalls|]. by intros [] (?&?&?).
    - intros _. exists value, body, None.
      apply elem_of_app. right. by left.
    - intros code e' [= _ <-]. right. left.
      destruct (Hrfail _ _ Hc) as (rev & cs & Hin). exists rev, cs.
      apply elem_of_app. right. right. rewrite app_nil_r. done. }
  match goal with
  | |- context [postComment ?g ?c ?p ?r ?i ?b ?w] =>
      destruct (postComment_run g c p r i b w)
        as ([err Hp] & Hpcalls & Hpost & Hpfail)
  end.
  rewrite Hp. split; [done|]. split; [|split; [|split]].
  - apply Forall_app. split.
    + eapply Forall_impl; [apply Hcalls|]. by intros [] [??].
    + constructor; [done|]. apply Forall_app. split.
      * eapply Forall_impl; [apply Hrcalls|]. by intros [] (?&?&?).
      * eapply Forall_impl; [apply Hpcalls|]. by intros [] [??].
  - intros _. exists value, body, None. apply elem_of_app. right. by left.
  - intros code [= <- ->]. destruct (Hpost _ Hp) as (marker & opt & Hpc).
    exists value, body, marker, opt. split.
    + apply elem_of_app. right. by left.
    + apply elem_of_app. right. right. apply elem_of_app. right.
      rewrite Hpc. by left.
  - intros code e [= <- ->].
    eapply fatal_failure_mono; [|by eapply Hpfail].
    intros c Hin. apply elem_of_app. right. right.
    apply elem_of_app. by right.
Qed.
End NotifyFacts.

(** ** [Notify]: the early returns, the exit code, the parse error *)

(** C1 (as the code has it).  When the parser reports no parse error and
    the result text is empty, [Notify] returns the exit code of the
    caller together with the [Error] of the parse result (nil exactly
    when the parser reported none), calls no collaborator, so posts no
    comment, and leaves the world as it was. *)
Theorem Notify_empty_result
    {W : Type} (g : NotifyService W) (param : ParamExec.t) (w : W) :
  ParseResult.HasParseError (parseOutput (ClientConfig g) param) = false →
  ParseResult.Result (parseOutput (ClientConfig g) param) = "" →
  Notify g param w =
    Run.mk (Some (ParamExec.ExitCode param,
                  ParseResult.Error (parseOutput (ClientConfig g) param)))
           w [].
Proof.
  intros Hparse Hempty. unfold Notify. rewrite Hparse, Hempty.
  by destruct (ParseResult.Error _).
Qed.

Lemma Notify_empty_result_witness :
  Notify (Fixture.planClient Fixture.emptyResult) (Fixture.param 0) tt =
    Run.mk (Some (0, None)) tt [].
Proof.
  exact (Notify_empty_result (Fixture.planClient Fixture.emptyResult)
           (Fixture.param 0) tt eq_refl eq_refl).
Defined.

(** C1 as stated fails: with a parse error the empty result text does
    not stop [Notify], which renders and posts a comment. *)
Lemma Notify_empty_result_parse_error :
  let g := Fixture.planClient Fixture.parseError in
  let run := Notify g (Fixture.param 1) tt in
  ParseResult.Result (parseOutput (ClientConfig g) (Fixture.param 1)) = ""
  ∧ ¬ (Run.res run = Some (1, None)
       ∧ existsb is_post (Run.calls run) = false).
Proof.
  split; [reflexivity|]. intros [_ Hpost]. vm_compute in Hpost. discriminate.
Qed.

(** C2. Whatever [Notify] returns, the integer is the exit code of the
    caller; and [Notify] does return, unless a label removal came back
    with an error and a nil response. *)
Theorem Notify_exit_code
    {W : Type} (g : NotifyService W) (param : ParamExec.t) (w : W) :
  match Run.res (Notify g param w) with
  | Some (code, _) => code = ParamExec.ExitCode param
  | None => nil_response_panic (Run.calls (Notify g param w))
  end.
Proof.
  unfold Notify.
  destruct (ParseResult.HasParseError _).
  - apply (notifyWith_run g param).
  - destruct (ParseResult.Error _); [done|].
    destruct (String.eqb _ _); [done|].
    apply (notifyWith_run g param).
Qed.

(** C3 (as the code has it).  When the parser reports no parse error
    and a non-nil [Error], [Notify] returns that error with the exit code
    of the caller and calls no collaborator: no comment is posted. *)
Theorem Notify_parser_error
    {W : Type} (g : NotifyService W) (param : ParamExec.t) (w : W)
    (e : error) :
  ParseResult.HasParseError (parseOutput (ClientConfig g) param) = false →
  ParseResult.Error (parseOutput (ClientConfig g) param) = Some e →
  Notify g param w = Run.mk (Some (ParamExec.ExitCode param, Some e)) w [].
Proof.
  intros Hparse Herr. unfold Notify. by rewrite Hparse, Herr.
Qed.

Lemma Notify_parser_error_witness :
  Notify (Fixture.planClient Fixture.planError) (Fixture.param 1) tt =
    Run.mk (Some (1, Some "terraform plan failed")) tt [].
Proof.
  exact (Notify_parser_error (Fixture.planClient Fixture.planError)
           (Fixture.param 1) tt "terraform plan failed" eq_refl eq_refl).
Defined.

(** C3 as stated fails: a parse result with an error, a result text and
    the parse-error flag is rendered and posted, and [Notify] returns no
    error. *)
Lemma Notify_parser_error_parse_error :
  let g := Fixture.planClient Fixture.parseErrorWithText in
  let result := parseOutput (ClientConfig g) (Fixture.param 1) in
  let run := Notify g (Fixture.param 1) tt in
  ParseResult.Error result = Some "cannot parse plan result"
  ∧ ParseResult.Result result ≠ ""
  ∧ ¬ (Run.res run = Some (1, Some "cannot parse plan result")
       ∧ existsb is_post (Run.calls run) = false).
Proof.
  split; [reflexivity|]. split; [discriminate|].
  intros [Hres _]. vm_compute in Hres. discriminate.
Qed.

(** C4. With the parse-error flag set, whatever the other fields of the
    parse result: every template that [Notify] executes is the
    parse-error template; the run reaches that execution unless it
    panics; a run that returns no error has posted the text rendered by
    the parse-error template, followed by the embedded comment; and an
    error that [Notify] returns comes from a later step (template,
    commit listing, embedded comment, post), never from the parse. *)
Theorem Notify_parse_error_template
    {W : Type} (g : NotifyService W) (param : ParamExec.t) (w : W) :
  let cfg := ClientConfig g in
  let run := Notify g param w in
  ParseResult.HasParseError (parseOutput cfg param) = true →
  Forall (fun c => match c with
                   | Execute_call t _ _ _ => t = Config.ParseErrorTemplate cfg
                   | _ => True
                   end) (Run.calls run)
  ∧ (is_Some (Run.res run) →
     ∃ value body err,
       Execute_call (Config.ParseErrorTemplate cfg) value body err
       ∈ Run.calls run)
  ∧ (∀ code, Run.res run = Some (code, None) →
     ∃ value body marker opt,
       Execute_call (Config.ParseErrorTemplate cfg) value body None
       ∈ Run.calls run
       ∧ CommentPost_call (body +:+ marker) opt None ∈ Run.calls run)
  ∧ (∀ code e, Run.res run = Some (code, Some e) →
     fatal_failure g param e (Run.calls run))
  ∧ (Run.res run = None → nil_response_panic (Run.calls run)).
Proof.
  intros cfg run Hparse. subst run. unfold Notify. fold cfg. rewrite Hparse.
  destruct (notifyWith_run g param (parseOutput cfg param)
              (Config.ParseErrorTemplate cfg) w)
    as (Hcode & Hexec & Hreach & Hpost & Hfail).
  repeat split; try done.
  intros Hnone. by rewrite Hnone in Hcode.
Qed.

Lemma Notify_parse_error_template_witness :
  let g := Fixture.planClient Fixture.parseError in
  let run := Notify g (Fixture.param 1) tt in
  ∃ value body marker opt,
    Execute_call Fixture.parseErrorTemplate value body None ∈ Run.calls run
    ∧ CommentPost_call (body +:+ marker) opt None ∈ Run.calls run.
Proof.
  exact (proj1 (proj2 (proj2
           (Notify_parse_error_template
              (Fixture.planClient Fixture.parseError) (Fixture.param 1) tt
              eq_refl))) 1 eq_refl).
Defined.

(** ** The removal of the stale labels *)

Section RemovalFacts.
Context {W : Type}.
Implicit Types (g : NotifyService W) (w : W).

(** A listed label that is not stale is passed over; it gives its color
    when it is the target. *)
Lemma removeLoop_post_skip g l rest label labelColor r :
  is_stale (Config.ResultLabels (ClientConfig g)) label l = false →
  removeLoop_post g rest label
    (if String.eqb (Label.GetName l) label then Label.GetColor l
     else labelColor) r →
  removeLoop_post g (l :: rest) label labelColor r.
Proof.
  intros Hstale. unfold removeLoop_post, staleNames. simpl.
  rewrite Hstale.
  destruct (Run.res r) as [[color [e|]]|]; [| done |].
  - intros (pre & l' & post & removals & resp & -> & H).
    exists (l :: pre), l', post, removals, resp. simpl. by rewrite Hstale.
  - intros (pre & l' & post & removals & e & -> & H).
    exists (l :: pre), l', post, removals, e. simpl. by rewrite Hstale.
Qed.

(** A stale label whose removal succeeded, or failed with not-found:
    the loop goes on with the rest. *)
Lemma removeLoop_post_removed g l rest label labelColor resp err
    (r : Run.t W (string * option error)) :
  let ev := IssuesRemoveLabel_call
              (PullRequest.Number (Config.PR (ClientConfig g)))
              (Label.GetName l) resp err in
  is_stale (Config.ResultLabels (ClientConfig g)) label l = true →
  removal_succeeded ev = true →
  removeLoop_post g rest label labelColor r →
  removeLoop_post g (l :: rest) label labelColor
    (Run.mk (Run.res r) (Run.world r) (ev :: Run.calls r)).
Proof.
  intros ev Hstale Hok. unfold removeLoop_post, staleNames. simpl.
  rewrite Hstale.
  assert (String.eqb (Label.GetName l) label = false) as Hne.
  { unfold is_stale in Hstale. by destruct (String.eqb _ label). }
  subst ev. simpl in Hok.
  destruct (Run.res r) as [[color [e|]]|].
  - intros (pre & l' & post & removals & resp' & -> & ? & -> & ? & ? & ? & ?).
    exists (l :: pre), l', post,
      (IssuesRemoveLabel_call
         (PullRequest.Number (Config.PR (ClientConfig g)))
         (Label.GetName l) resp err :: removals), resp'.
    simpl. rewrite Hstale, Hne, Hok. simpl.
    repeat split; try done. by f_equal.
  - intros (Hall & Hnames & Hcolor). rewrite Hok, Hne. simpl.
    repeat split; try done. by f_equal.
  - intros (pre & l' & post & removals & e & -> & ? & -> & ? & ?).
    exists (l :: pre), l', post,
      (IssuesRemoveLabel_call
         (PullRequest.Number (Config.PR (ClientConfig g)))
         (Label.GetName l) resp err :: removals), e.
    simpl. rewrite Hstale, Hok. simpl.
    repeat split; try done. by f_equal.
Qed.

Lemma removeLoop_run g labels label labelColor w :
  removeLoop_post g labels label labelColor
    (removeLoop g labels label labelColor w).
Proof.
  revert labelColor w.
  induction labels as [|l rest IH]; intros labelColor w.
  { by unfold removeLoop_post. }
  simpl.
  destruct (String.eqb (Label.GetName l) label) eqn:Hname.
  { apply removeLoop_post_skip; [|rewrite Hname; apply IH].
    unfold is_stale. by rewrite Hname. }
  destruct (ResultLabels.IsResultLabel _ _) eqn:Hresult.
  2:{ apply removeLoop_post_skip; [|rewrite Hname; apply IH].
      unfold is_stale. by rewrite Hname, Hresult. }
  assert (is_stale (Config.ResultLabels (ClientConfig g)) label l = true)
    as Hstale by (unfold is_stale; by rewrite Hname, Hresult).
  unfold bind, call.
  destruct (IssuesRemoveLabel _ _ _ _) as [[resp err] w']; simpl.
  destruct err as [e|].
  - destruct resp as [resp|].
    + destruct (Response.StatusCode resp =? StatusNotFound)%Z eqn:Hstatus.
      * apply (removeLoop_post_removed g l rest label labelColor
                 (Some resp) (Some e)); [done|done|apply IH].
      * unfold removeLoop_post. simpl.
        exists [], l, rest, [], resp. repeat split; try done.
        by apply Z.eqb_neq.
    + unfold removeLoop_post. simpl. exists [], l, rest, [], e. done.
  - apply (removeLoop_post_removed g l rest label labelColor resp None);
      [done|by destruct resp|apply IH].
Qed.
End RemovalFacts.

(** ** The reconciliation as a whole *)

Section ReconcileFacts.
Context {W : Type}.
Implicit Types (g : NotifyService W) (w : W).

Lemma updateLabelColor_msgs g labelToAdd labelColor errMsgs w :
  ∃ extra,
    Run.res (updateLabelColor g labelToAdd labelColor errMsgs w)
    = Some (errMsgs ++ extra)
    ∧ Forall (fun m => String.prefix "remove labels: " m = false) extra.
Proof.
  unfold updateLabelColor. run_simpl.
  destruct (IssuesUpdateLabel _ _ _ _).1 as [e|]; simpl.
  - eexists. split; [done|]. by repeat constructor.
  - exists []. by rewrite app_nil_r.
Qed.

Lemma setColorLoop_msgs g labels labelToAdd labelColor errMsgs w :
  ∃ extra,
    Run.res (setColorLoop g labels labelToAdd labelColor errMsgs w)
    = Some (errMsgs ++ extra)
    ∧ Forall (fun m => String.prefix "remove labels: " m = false) extra.
Proof.
  revert errMsgs w.
  induction labels as [|l rest IH]; intros errMsgs w; simpl.
  { exists []. by rewrite app_nil_r. }
  destruct (_ && _); [|apply IH].
  run_simpl.
  destruct (updateLabelColor_msgs g labelToAdd labelColor errMsgs w)
    as (extra & -> & Hextra).
  match goal with
  | |- context [setColorLoop g rest labelToAdd labelColor ?m ?w'] =>
      destruct (IH m w') as (extra' & -> & Hextra')
  end.
  exists (extra ++ extra'). rewrite app_assoc. split; [done|].
  by apply Forall_app.
Qed.

Lemma removed_names_app (cs cs' : list Call) :
  removed_names (cs ++ cs') = removed_names cs ++ removed_names cs'.
Proof. unfold removed_names. apply omap_app. Qed.

Lemma removed_names_none (cs : list Call) :
  Forall (fun c => is_remove c = false) cs → removed_names cs = [].
Proof.
  induction 1 as [|c cs Hc _ IH]; [done|].
  by destruct c.
Qed.

Lemma ensureLabel_run g labelToAdd labelColor current errMsgs w :
  let n := PullRequest.Number (Config.PR (ClientConfig g)) in
  let r := ensureLabel g labelToAdd labelColor current errMsgs w in
  (∃ extra,
     Run.res r = Some (errMsgs ++ extra)
     ∧ Forall (fun m => String.prefix "remove labels: " m = false) extra)
  ∧ removed_names (Run.calls r) = []
  ∧ (labelToAdd ≠ "" → current = "" →
     ∃ ls e updates,
       Run.calls r = IssuesAddLabels_call n [labelToAdd] ls e :: updates
       ∧ Forall (fun c => is_update c = true) updates)
  ∧ (labelToAdd ≠ "" → current ≠ "" →
     Forall (fun c => is_add c = false) (Run.calls r)
     ∧ if negb (String.eqb labelColor "")
          && negb (String.eqb labelColor current)
       then ∃ err,
           Run.calls r = [IssuesUpdateLabel_call labelToAdd labelColor err]
       else Run.calls r = []).
Proof.
  intros n r. split; [|split].
  - subst r. unfold ensureLabel.
    destruct (String.eqb labelToAdd "").
    { exists []. by rewrite app_nil_r. }
    destruct (String.eqb current "").
    + run_simpl.
      destruct (IssuesAddLabels _ _ _ _) as [[ls [e|]] w']; simpl.
      * destruct (negb _).
        -- match goal with
           | |- context [setColorLoop g ls labelToAdd labelColor ?m w'] =>
               destruct (setColorLoop_msgs g ls labelToAdd labelColor m w')
                 as (extra & -> & Hextra)
           end.
           eexists. rewrite <- app_assoc. split; [done|].
           apply Forall_app. split; [by repeat constructor|done].
        -- eexists. split; [done|]. by repeat constructor.
      * destruct (negb _).
        -- apply setColorLoop_msgs.
        -- exists []. by rewrite app_nil_r.
    + destruct (_ && _); [apply updateLabelColor_msgs|].
      exists []. by rewrite app_nil_r.
  - apply removed_names_none.
    eapply Forall_impl; [apply ensureLabel_calls|].
    intros c [(? & ? & ? & ->)|(? & ->)]; done.
  - subst r. unfold ensureLabel. split.
    + intros Hlabel ->.
      destruct (String.eqb_spec labelToAdd ""); [done|]. simpl.
      run_simpl. do 3 eexists. split; [done|].
      destruct (negb _); [|constructor].
      eapply Forall_impl; [apply setColorLoop_calls|]. by intros c [err ->].
    + intros Hlabel Hcurrent.
      destruct (String.eqb_spec labelToAdd ""); [done|].
      destruct (String.eqb_spec current ""); [done|].
      destruct (_ && _).
      * destruct (updateLabelColor_calls g labelToAdd labelColor errMsgs w)
          as [err Hcalls].
        rewrite Hcalls. split; [by repeat constructor|by exists err].
      * by split; [constructor|].
Qed.

(** [updateLabels], cut at the return of [removeResultLabels]. *)
Lemma updateLabels_run g result w :
  let cfg := ClientConfig g in
  let n := PullRequest.Number (Config.PR cfg) in
  let labelToAdd := (labelDecision (Config.ResultLabels cfg) result).1 in
  let labelColor := (labelDecision (Config.ResultLabels cfg) result).2 in
  let listing := IssuesListLabels (ClientAPI g) n w in
  let listed := IssuesListLabels_call n listing.1.1 listing.1.2 in
  let loop := removeLoop g listing.1.1 labelToAdd "" listing.2 in
  updateLabels g result w =
    match listing.1.2 with
    | Some e =>
        Run.prepend [listed]
          (ensureLabel g labelToAdd labelColor ""
             ["remove labels: " +:+ e] listing.2)
    | None =>
        match Run.res loop with
        | Some (color, err) =>
            Run.prepend (listed :: Run.calls loop)
              (ensureLabel g labelToAdd labelColor color
                 match err with
                 | Some e => ["remove labels: " +:+ e]
                 | None => []
                 end (Run.world loop))
        | None => Run.mk None (Run.world loop) (listed :: Run.calls loop)
        end
    end.
Proof.
  intros cfg n labelToAdd labelColor listing listed loop.
  unfold updateLabels, removeResultLabels, bind, call.
  fold cfg n labelToAdd labelColor listing.
  subst listed loop.
  destruct listing as [[labels [e|]] w']; simpl; [done|].
  destruct (Run.res (removeLoop g labels labelToAdd "" w'))
    as [[color [e|]]|]; simpl; try done.
Qed.
End ReconcileFacts.

(** C8. A removal that fails with a not-found response counts as a
    removal that succeeded.  In a run whose listing succeeded and whose
    removals all succeeded or failed with not-found, the reconciliation
    does not stop and does not panic: every stale label of the listing
    has its removal attempted, in the order of the listing, the steps
    that add the target label or set its color follow, entered with the
    listed color of the target and an empty message list, and no message
    of the returned list is a "remove labels" message. *)
Theorem not_found_removal_is_success
    {W : Type} (g : NotifyService W) (result : ParseResult.t) (w : W) :
  let cfg := ClientConfig g in
  let n := PullRequest.Number (Config.PR cfg) in
  let rl := Config.ResultLabels cfg in
  let labelToAdd := (labelDecision rl result).1 in
  let labelColor := (labelDecision rl result).2 in
  let listing := (IssuesListLabels (ClientAPI g) n w).1 in
  let run := updateLabels g result w in
  listing.2 = None →
  forallb removal_succeeded (Run.calls run) = true →
  ∃ removals w',
    run = Run.prepend (IssuesListLabels_call n listing.1 None :: removals)
            (ensureLabel g labelToAdd labelColor
               (listedColor labelToAdd listing.1 "") [] w')
    ∧ Forall (fun c => is_remove c = true) removals
    ∧ removed_names removals = staleNames rl labelToAdd listing.1
    ∧ ∃ msgs,
        Run.res run = Some msgs
        ∧ Forall (fun m => String.prefix "remove labels: " m = false) msgs.
Proof.
  intros cfg n rl labelToAdd labelColor listing run Hlisted Hok.
  subst run. revert Hok. rewrite (updateLabels_run g result w).
  fold cfg n rl labelToAdd labelColor. fold listing. rewrite Hlisted.
  pose proof (removeLoop_run g listing.1 labelToAdd ""
                (IssuesListLabels (ClientAPI g) n w).2) as Hloop.
  pose proof (removeLoop_calls g listing.1 labelToAdd ""
                (IssuesListLabels (ClientAPI g) n w).2) as Hremovals.
  unfold removeLoop_post in Hloop. fold cfg n rl in Hloop.
  destruct (Run.res (removeLoop _ _ _ _ _)) as [[color [e|]]|].
  - destruct Hloop as (pre & l & post & removals & resp & _ & _ & -> & Hs & _).
    intros Hok. exfalso. rewrite List.forallb_forall in Hok.
    specialize (Hok (IssuesRemoveLabel_call n (Label.GetName l)
                       (Some resp) (Some e))).
    simpl in Hok. apply Hs, Z.eqb_eq, Hok.
    right. apply in_or_app. left. apply in_or_app. right. by left.
  - destruct Hloop as (Hall & Hnames & ->). intros _.
    eexists _, _. split; [reflexivity|]. split; [done|]. split; [done|].
    simpl.
    match goal with
    | |- context [ensureLabel ?g ?a ?b ?c ?d ?w'] =>
        destruct (ensureLabel_run g a b c d w') as ((extra & -> & Hextra) & _)
    end.
    by exists extra.
  - destruct Hloop as (pre & l & post & removals & e & _ & _ & -> & _).
    intros Hok. exfalso. rewrite List.forallb_forall in Hok.
    specialize (Hok (IssuesRemoveLabel_call n (Label.GetName l)
                       None (Some e))).
    simpl in Hok. discriminate Hok.
    right. apply in_or_app. right. by left.
Qed.

Lemma not_found_removal_is_success_witness :
  let g := Fixture.labelClient Fixture.staleListing Fixture.notFound404 in
  let run := updateLabels g Fixture.noChanges tt in
  ∃ removals w',
    run = Run.prepend
            (IssuesListLabels_call 42 Fixture.staleListing None :: removals)
            (ensureLabel g "no-changes" "0e8a16" "" [] w')
    ∧ Forall (fun c => is_remove c = true) removals
    ∧ removed_names removals = ["destroy"; "plan-error"]
    ∧ ∃ msgs,
        Run.res run = Some msgs
        ∧ Forall (fun m => String.prefix "remove labels: " m = false) msgs.
Proof.
  exact (not_found_removal_is_success
           (Fixture.labelClient Fixture.staleListing Fixture.notFound404)
           Fixture.noChanges tt eq_refl eq_refl).
Defined.

(** C7 (as the code has it).  When the removal of a stale result label
    fails with a response other than not-found, the removal loop stops
    there: the stale labels listed before it had their removal attempted,
    those listed after it have not.  The failure is recorded as the first
    message of the returned list, "remove labels: " followed by the error,
    and the steps that add the target label or set its color still run,
    entered with the color of the target as listed before the failure. *)
Theorem removal_failure_is_recorded
    {W : Type} (g : NotifyService W) (result : ParseResult.t) (w : W)
    (name : string) (resp : Response.t) (e : error) :
  let cfg := ClientConfig g in
  let n := PullRequest.Number (Config.PR cfg) in
  let rl := Config.ResultLabels cfg in
  let labelToAdd := (labelDecision rl result).1 in
  let labelColor := (labelDecision rl result).2 in
  let listing := (IssuesListLabels (ClientAPI g) n w).1 in
  let run := updateLabels g result w in
  let failure := IssuesRemoveLabel_call n name (Some resp) (Some e) in
  failure ∈ Run.calls run →
  Response.StatusCode resp ≠ StatusNotFound →
  ∃ pre l post removals w',
    listing.1 = pre ++ l :: post
    ∧ Label.GetName l = name
    ∧ is_stale rl labelToAdd l = true
    ∧ run = Run.prepend
              (IssuesListLabels_call n listing.1 None
                 :: removals ++ [failure])
              (ensureLabel g labelToAdd labelColor
                 (listedColor labelToAdd pre "")
                 ["remove labels: " +:+ e] w')
    ∧ forallb removal_succeeded removals = true
    ∧ removed_names (Run.calls run) = staleNames rl labelToAdd pre ++ [name]
    ∧ ∃ msgs, Run.res run = Some (("remove labels: " +:+ e) :: msgs).
Proof.
  intros cfg n rl labelToAdd labelColor listing run failure Hin Hstatus.
  subst run. revert Hin. rewrite (updateLabels_run g result w).
  fold cfg n rl labelToAdd labelColor. fold listing.
  assert (Hfailed : removal_succeeded failure = false).
  { simpl. by apply Z.eqb_neq. }
  assert (Hensure : ∀ color msgs w',
            failure ∉ Run.calls (ensureLabel g labelToAdd labelColor
                                   color msgs w')).
  { intros color msgs w' Hin.
    pose proof (ensureLabel_calls g labelToAdd labelColor color msgs w')
      as Hcalls.
    rewrite Forall_forall in Hcalls.
    by destruct (Hcalls _ Hin) as [(? & ? & ? & ?)|(? & ?)]. }
  destruct listing.2 as [e'|] eqn:Hlisted.
  { simpl. intros [Heq|Hin]%elem_of_cons; [done|]. by apply Hensure in Hin. }
  pose proof (removeLoop_run g listing.1 labelToAdd ""
                (IssuesListLabels (ClientAPI g) n w).2) as Hloop.
  unfold removeLoop_post in Hloop. fold cfg n rl in Hloop.
  destruct (Run.res (removeLoop _ _ _ _ _)) as [[color [e'|]]|].
  - destruct Hloop as (pre & l & post & removals & resp' & Hsplit & Hstale
                       & Hcalls & Hs & Hall & Hnames & ->).
    rewrite Hcalls. simpl.
    intros [Heq|Hin]%elem_of_cons; [done|].
    apply elem_of_app in Hin as [Hin|Hin]; [|by apply Hensure in Hin].
    apply elem_of_app in Hin as [Hin|Hin].
    { rewrite List.forallb_forall in Hall.
      apply list_elem_of_In, Hall in Hin. congruence. }
    apply list_elem_of_singleton in Hin. injection Hin as -> -> ->.
    exists pre, l, post, removals.
    eexists. split; [done|]. split; [done|]. split; [done|].
    split; [reflexivity|]. split; [done|]. split.
    + simpl. rewrite !removed_names_app, Hnames.
      match goal with
      | |- context [ensureLabel ?g ?a ?b ?c ?d ?w'] =>
          destruct (ensureLabel_run g a b c d w') as (_ & -> & _)
      end.
      by rewrite app_nil_r.
    + simpl.
      match goal with
      | |- context [ensureLabel ?g ?a ?b ?c ?d ?w'] =>
          destruct (ensureLabel_run g a b c d w') as ((extra & -> & _) & _)
      end.
      by exists extra.
  - destruct Hloop as (Hall & _). simpl.
    intros [Heq|Hin]%elem_of_cons; [done|].
    apply elem_of_app in Hin as [Hin|Hin]; [|by apply Hensure in Hin].
    rewrite List.forallb_forall in Hall.
    apply list_elem_of_In, Hall in Hin. congruence.
  - destruct Hloop as (pre & l & post & removals & e' & _ & _ & -> & Hall & _).
    simpl. intros [Heq|Hin]%elem_of_cons; [done|].
    apply elem_of_app in Hin as [Hin|Hin].
    + rewrite List.forallb_forall in Hall.
      apply list_elem_of_In, Hall in Hin. congruence.
    + by apply list_elem_of_singleton in Hin.
Qed.

Lemma removal_failure_is_recorded_witness :
  let g := Fixture.labelClient Fixture.staleListing Fixture.serverError500 in
  let run := updateLabels g Fixture.noChanges tt in
  let failure :=
    IssuesRemoveLabel_call 42 "destroy" (Some (Response.mk 500))
                           (Some "500 Internal Server Error") in
  ∃ pre l post removals w',
    Fixture.staleListing = pre ++ l :: post
    ∧ Label.GetName l = "destroy"
    ∧ is_stale Fixture.labels "no-changes" l = true
    ∧ run = Run.prepend
              (IssuesListLabels_call 42 Fixture.staleListing None
                 :: removals ++ [failure])
              (ensureLabel g "no-changes" "0e8a16"
                 (listedColor "no-changes" pre "")
                 ["remove labels: 500 Internal Server Error"] w')
    ∧ forallb removal_succeeded removals = true
    ∧ removed_names (Run.calls run) =
        staleNames Fixture.labels "no-changes" pre ++ ["destroy"]
    ∧ ∃ msgs,
        Run.res run =
          Some ("remove labels: 500 Internal Server Error" :: msgs).
Proof.
  refine (removal_failure_is_recorded
            (Fixture.labelClient Fixture.staleListing Fixture.serverError500)
            Fixture.noChanges tt "destroy" (Response.mk 500)
            "500 Internal Server Error" _ _).
  - apply list_elem_of_further, list_elem_of_here.
  - discriminate.
Defined.

(** C7 as stated fails: after the removal of "destroy" has failed with a
    server error, the removal of "plan-error", stale as well and listed
    after it, is not attempted. *)
Lemma removal_failure_stops_removals :
  let g := Fixture.labelClient Fixture.staleListing Fixture.serverError500 in
  let run := updateLabels g Fixture.noChanges tt in
  IssuesRemoveLabel_call 42 "destroy" (Some (Response.mk 500))
                         (Some "500 Internal Server Error") ∈ Run.calls run
  ∧ staleNames Fixture.labels "no-changes" Fixture.staleListing
    = ["destroy"; "plan-error"]
  ∧ ¬ (∀ name,
         name ∈ staleNames Fixture.labels "no-changes" Fixture.staleListing →
         name ∈ removed_names (Run.calls run)).
Proof.
  split; [apply list_elem_of_further, list_elem_of_here|].
  split; [reflexivity|].
  intros Hall. specialize (Hall "plan-error").
  assert (Hin : "plan-error" ∈ ["destroy"]).
  { apply Hall. apply list_elem_of_further, list_elem_of_here. }
  apply list_elem_of_singleton in Hin. discriminate Hin.
Qed.

(** ** The listed color decides between adding and recoloring *)





(** ** The apply flow *)

Section ApplyFacts.
Context {W : Type}.
Implicit Types (g : NotifyService W) (w : W).

(** The comment is addressed by the pull request of the configuration
    that [postComment] is given. *)
Lemma postComment_options g cfg param result isPlan body w :
  Forall (fun c => match c with
                   | CommentPost_call _ opt _ =>
                       opt = PostOptions.mk
                               (PullRequest.Number (Config.PR cfg))
                               (PullRequest.Revision (Config.PR cfg))
                   | _ => True
                   end)
         (Run.calls (postComment g cfg param result isPlan body w)).
Proof.
  unfold postComment. run_simpl.
  destruct (getEmbeddedComment _ _ _ _ _) as [marker [e|]]; simpl;
    [constructor|].
  run_simpl. destruct (Post _ _ _ _) as [[e|] w']; by repeat constructor.
Qed.
(** [postComment] calls nothing but the post. *)
Lemma postComment_addressed g cfg param result isPlan body w :
  Forall (fun c => match c with
                   | CommentPost_call _ opt _ =>
                       opt = PostOptions.mk
                               (PullRequest.Number (Config.PR cfg))
                               (PullRequest.Revision (Config.PR cfg))
                   | _ => False
                   end)
         (Run.calls (postComment g cfg param result isPlan body w)).
Proof.
  unfold postComment. run_simpl.
  destruct (getEmbeddedComment _ _ _ _ _) as [marker [e|]]; simpl;
    [constructor|].
  run_simpl. destruct (Post _ _ _ _) as [[e|] w']; by repeat constructor.
Qed.
End ApplyFacts.

(** C9. The apply flow of [Notify], once the template has rendered.
    When the lookup of the merged pull request succeeds, the number of
    the configuration becomes the number it found: the comment is built
    from a configuration with that number and posted to it, with the
    configured revision.  When the lookup fails and a number is
    configured, the failure is dropped, no commit is listed and the
    comment goes to the configured number and revision.  When it fails
    and no number is configured, the commits of the revision are listed:
    an error of that listing is returned by [Notify] with the exit code
    of the caller and nothing is posted; otherwise the revision of the
    configuration becomes the one that [lastOne] picks from the listing,
    whose own error is dropped, and the comment is built from and posted
    to that revision.  [lastOne] is the helper of the commits service
    that picks the most recent commit; [notify.go] does not hold it.
    Nothing but the pull request differs between the configuration and
    the one the comment is built from. *)
Theorem apply_flow_resolves_pull_request
    {W : Type} (g : NotifyService W) (param : ParamExec.t) (w : W) :
  let cfg := ClientConfig g in
  let result := parseOutput cfg param in
  let template :=
    if ParseResult.HasParseError result then Config.ParseErrorTemplate cfg
    else Config.Template cfg in
  let value := commonTemplate cfg param result [] in
  let rendered := Template.Execute template value in
  let revision := PullRequest.Revision (Config.PR cfg) in
  let number := PullRequest.Number (Config.PR cfg) in
  let lookup := MergedPRNumber (Commits g) revision w in
  let listing := CommitsList (Commits g) revision lookup.2 in
  let picked := (lastOne (Commits g) listing.1.1 revision).1 in
  let resolved (pr : PullRequest.t) :=
    Config.mk pr (Config.CI cfg) (Config.Parser cfg) (Config.UseRawOutput cfg)
              (Config.Template cfg) (Config.ParseErrorTemplate cfg)
              (Config.ResultLabels cfg) (Config.Vars cfg)
              (Config.EmbeddedVarNames cfg) (Config.Templates cfg) in
  let before :=
    [Execute_call template value rendered.1 None;
     MergedPRNumber_call revision lookup.1.1 lookup.1.2] in
  isApplyParser (Config.Parser cfg) = true →
  ParseResult.HasParseError result = true
  ∨ (ParseResult.Error result = None ∧ ParseResult.Result result ≠ "") →
  rendered.2 = None →
  Notify g param w =
    match lookup.1.2 with
    | None =>
        Run.prepend before
          (postComment g (resolved (PullRequest.mk revision lookup.1.1))
             param result false rendered.1 lookup.2)
    | Some _ =>
        if PullRequest.IsNumber (Config.PR cfg) then
          Run.prepend before
            (postComment g cfg param result false rendered.1 lookup.2)
        else
          match listing.1.2 with
          | Some e =>
              Run.mk (Some (ParamExec.ExitCode param, Some e)) listing.2
                     (before
                      ++ [CommitsList_call revision listing.1.1 (Some e)])
          | None =>
              Run.prepend
                (before ++ [CommitsList_call revision listing.1.1 None])
                (postComment g (resolved (PullRequest.mk picked number))
                   param result false rendered.1 listing.2)
          end
    end
  ∧ Forall (fun c =>
              match c with
              | CommentPost_call _ opt _ =>
                  match lookup.1.2 with
                  | None =>
                      PostOptions.Number opt = lookup.1.1
                      ∧ PostOptions.Revision opt = revision
                  | Some _ =>
                      PostOptions.Number opt = number
                      ∧ PostOptions.Revision opt
                        = if PullRequest.IsNumber (Config.PR cfg)
                          then revision else picked
                  end
              | CommitsList_call _ _ _ =>
                  lookup.1.2 ≠ None
                  ∧ PullRequest.IsNumber (Config.PR cfg) = false
              | _ => True
              end) (Run.calls (Notify g param w))
  ∧ ∀ cfg' body w',
      Forall (fun c => match c with
                       | CommentPost_call _ opt _ =>
                           opt = PostOptions.mk
                                   (PullRequest.Number (Config.PR cfg'))
                                   (PullRequest.Revision (Config.PR cfg'))
                       | _ => True
                       end)
             (Run.calls (postComment g cfg' param result false body w')).
Proof.
  intros cfg result template value rendered revision number lookup listing
         picked resolved before Happly Hreach Hrendered.
  assert (Hplan : isPlanParser (Config.Parser cfg) = false).
  { unfold isApplyParser in Happly. unfold isPlanParser.
    by destruct (Parser.kind _). }
  assert (Hnotify : Notify g param w = notifyWith g param result template w).
  { unfold Notify. fold cfg result. subst template.
    destruct Hreach as [->|[-> Hresult]]; [done|].
    destruct (ParseResult.HasParseError result); [done|].
    by destruct (String.eqb_spec (ParseResult.Result result) ""). }
  assert (Hrun :
    Notify g param w =
    match lookup.1.2 with
    | None =>
        Run.prepend before
          (postComment g (resolved (PullRequest.mk revision lookup.1.1))
             param result false rendered.1 lookup.2)
    | Some _ =>
        if PullRequest.IsNumber (Config.PR cfg) then
          Run.prepend before
            (postComment g cfg param result false rendered.1 lookup.2)
        else
          match listing.1.2 with
          | Some e =>
              Run.mk (Some (ParamExec.ExitCode param, Some e)) listing.2
                     (before
                      ++ [CommitsList_call revision listing.1.1 (Some e)])
          | None =>
              Run.prepend
                (before ++ [CommitsList_call revision listing.1.1 None])
                (postComment g (resolved (PullRequest.mk picked number))
                   param result false rendered.1 listing.2)
          end
    end).
  { rewrite Hnotify. unfold notifyWith, resolvePullRequest.
    fold cfg. rewrite Hplan, Happly.
    rewrite bind_run. run_step. rewrite prepend_nil, bind_run, call_run.
    run_step. fold value. fold rendered. rewrite Hrendered. fold revision.
    rewrite !bind_run, !call_run. run_step. fold lookup.
    subst before picked.
    destruct lookup as [[found [e|]] w1] eqn:Hlookup; run_step.
    2:{ by rewrite ?prepend_mk, ?prepend_nil, ?prepend_prepend. }
    destruct (PullRequest.IsNumber (Config.PR cfg)); run_step.
    { rewrite ?prepend_mk. run_step. by rewrite ?prepend_prepend. }
    rewrite bind_run, call_run. subst listing. run_step.
    destruct (CommitsList (Commits g) revision w1) as [[commits [e'|]] w2];
      run_step.
    - done.
    - by rewrite ?prepend_mk, ?prepend_prepend. }
  split; [exact Hrun|]. split; [|intros; apply postComment_options].
  rewrite Hrun. subst before.
  assert (∀ pr body w',
            Forall (fun c =>
                      match c with
                      | CommentPost_call _ opt _ =>
                          PostOptions.Number opt = PullRequest.Number pr
                          ∧ PostOptions.Revision opt = PullRequest.Revision pr
                      | CommitsList_call _ _ _ => False
                      | _ => True
                      end)
                   (Run.calls (postComment g (resolved pr) param result false
                                 body w'))) as Hpost.
  { intros pr body w'.
    eapply Forall_impl; [apply postComment_addressed|].
    intros [] H; try done. by rewrite H. }
  destruct (lookup.1.2) as [e|] eqn:Hfound.
  - destruct (PullRequest.IsNumber (Config.PR cfg)) eqn:Hnumber.
    + rewrite prepend_calls. repeat constructor.
      replace cfg with (resolved (Config.PR cfg)) at 1 by by destruct cfg.
      eapply Forall_impl; [apply Hpost|]. by intros [].
    + destruct (listing.1.2) as [e'|].
      * by repeat constructor.
      * rewrite prepend_calls. repeat constructor; try done.
        eapply Forall_impl; [apply Hpost|]. by intros [].
  - rewrite prepend_calls. repeat constructor.
    eapply Forall_impl; [apply Hpost|]. by intros [].
Qed.

Lemma apply_flow_resolves_pull_request_witness :
  let g := Fixture.applyClient in
  let body :=
    "## Plan result: Apply complete! Resources: 1 added, 0 changed, 0 destroyed."
    +:+ "<!-- github-comment: {} -->" in
  CommentPost_call body (PostOptions.mk 0 "c2c2c2") None
    ∈ Run.calls (Notify g (Fixture.param 0) tt)
  ∧ Forall (fun c =>
              match c with
              | CommentPost_call _ opt _ =>
                  PostOptions.Number opt = 0
                  ∧ PostOptions.Revision opt = "c2c2c2"
              | _ => True
              end) (Run.calls (Notify g (Fixture.param 0) tt)).
Proof.
  intros g body.
  destruct (apply_flow_resolves_pull_request g (Fixture.param 0) tt eq_refl)
    as (Hrun & Hposts & _).
  - right. split; [reflexivity|discriminate].
  - reflexivity.
  - split.
    + rewrite Hrun. vm_compute. do 3 apply list_elem_of_further.
      apply list_elem_of_here.
    + eapply Forall_impl; [exact Hposts|]. intros []; try done.
Defined.

(** ** The removals, in every run *)

Section RemovalOrder.
Context {W : Type}.
Implicit Types (g : NotifyService W) (w : W).

Lemma staleNames_app rl label (xs ys : list Label.t) :
  staleNames rl label (xs ++ ys)
  = staleNames rl label xs ++ staleNames rl label ys.
Proof. unfold staleNames. by rewrite List.filter_app, map_app. Qed.

Lemma staleNames_cons rl label (l : Label.t) (xs : list Label.t) :
  is_stale rl label l = true →
  staleNames rl label (l :: xs) = Label.GetName l :: staleNames rl label xs.
Proof. intros H. unfold staleNames. simpl. by rewrite H. Qed.

Lemma removeLoop_removed g labels label labelColor w :
  removed_names (Run.calls (removeLoop g labels label labelColor w))
  `prefix_of` staleNames (Config.ResultLabels (ClientConfig g)) label labels.
Proof.
  pose proof (removeLoop_run g labels label labelColor w) as Hpost.
  unfold removeLoop_post in Hpost.
  destruct (Run.res _) as [[color [e|]]|].
  - destruct Hpost as (pre & l & post & removals & resp & -> & Hstale & ->
                       & _ & _ & Hnames & _).
    rewrite removed_names_app, Hnames, staleNames_app, staleNames_cons by done.
    exists (staleNames (Config.ResultLabels (ClientConfig g)) label post).
    by rewrite <- app_assoc.
  - destruct Hpost as (_ & -> & _). done.
  - destruct Hpost as (pre & l & post & removals & e & -> & Hstale & ->
                       & _ & Hnames).
    rewrite removed_names_app, Hnames, staleNames_app, staleNames_cons by done.
    exists (staleNames (Config.ResultLabels (ClientConfig g)) label post).
    by rewrite <- app_assoc.
Qed.
Lemma removeLoop_calls_stale g labels label labelColor w :
  Forall (fun c =>
            ∃ l resp err,
              c = IssuesRemoveLabel_call
                    (PullRequest.Number (Config.PR (ClientConfig g)))
                    (Label.GetName l) resp err
              ∧ l ∈ labels
              ∧ is_stale (Config.ResultLabels (ClientConfig g)) label l = true)
         (Run.calls (removeLoop g labels label labelColor w)).
Proof.
  revert labelColor w.
  induction labels as [|l rest IH]; intros labelColor w; simpl; [constructor|].
  assert (∀ c w', Forall (fun c =>
            ∃ l0 resp err,
              c = IssuesRemoveLabel_call
                    (PullRequest.Number (Config.PR (ClientConfig g)))
                    (Label.GetName l0) resp err
              ∧ l0 ∈ l :: rest
              ∧ is_stale (Config.ResultLabels (ClientConfig g)) label l0 = true)
         (Run.calls (removeLoop g rest label c w'))) as IH'.
  { intros c w'. eapply Forall_impl; [apply IH|].
    intros ? (l0 & resp & err & -> & Hin & Hst). exists l0, resp, err.
    split; [done|]. split; [by right|done]. }
  destruct (String.eqb _ label) eqn:Hname; [apply IH'|].
  destruct (ResultLabels.IsResultLabel _ _) eqn:Hres; [|apply IH'].
  rewrite bind_calls, call_calls, call_res, call_world.
  constructor.
  { do 3 eexists. split; [done|]. split; [by left|].
    unfold is_stale. by rewrite Hname, Hres. }
  cbn [fst snd].
  destruct (snd _) as [e|]; [|apply IH'].
  destruct (fst _) as [resp|]; [|constructor].
  destruct (_ =? _)%Z; [apply IH'|constructor].
Qed.
End RemovalOrder.

(** X1.  [removeResultLabels] lists the labels once and removes nothing
    but stale result labels of that listing: the names it removes are,
    in order, a prefix of the stale names of the listing (the listed
    names other than [label] that are result labels), each removal is
    addressed to the configured pull request and none names [label];
    when the listing fails nothing is removed.  This holds in every run,
    also in one that stops at a failed removal or panics. *)

Theorem removals_follow_the_listing
    {W : Type} (g : NotifyService W) (label : string) (w : W) :
  let cfg := ClientConfig g in
  let listing :=
    IssuesListLabels (ClientAPI g) (PullRequest.Number (Config.PR cfg)) w in
  let calls := Run.calls (removeResultLabels g label w) in
  removed_names calls
    `prefix_of` staleNames (Config.ResultLabels cfg) label listing.1.1
  ∧ Forall (fun c =>
              match c with
              | IssuesListLabels_call _ _ _ => True
              | IssuesRemoveLabel_call n name _ _ =>
                  n = PullRequest.Number (Config.PR cfg) ∧ name ≠ label
              | _ => False
              end) calls
  ∧ (listing.1.2 ≠ None → removed_names calls = []).
Proof.
  intros cfg listing calls. subst calls. unfold removeResultLabels.
  rewrite bind_calls, call_calls, call_res, call_world. fold cfg listing.
  cbn [fst snd].
  destruct listing as [[labels [e|]] w'] eqn:Hl; cbn [fst snd Run.calls ret].
  - split; [apply prefix_nil|]. split; [by repeat constructor|done].
  - split; [apply (removeLoop_removed g labels label "" w')|].
    split; [|done].
    constructor; [done|].
    eapply Forall_impl; [apply removeLoop_calls_stale|].
    intros c (l & resp & err & -> & _ & Hst). split; [done|].
    unfold is_stale in Hst. intros <-. by rewrite String.eqb_refl in Hst.
Qed.

(** ** The order of the calls of a reconciliation *)

Section ReconcileShape.
Context {W : Type}.
Implicit Types (g : NotifyService W) (w : W).

Lemma ensureLabel_shape g labelToAdd labelColor current errMsgs w :
  let n := PullRequest.Number (Config.PR (ClientConfig g)) in
  let calls :=
    Run.calls (ensureLabel g labelToAdd labelColor current errMsgs w) in
  calls = []
  ∨ (∃ ls e updates,
       calls = IssuesAddLabels_call n [labelToAdd] ls e :: updates
       ∧ Forall (fun c => ∃ err,
                   c = IssuesUpdateLabel_call labelToAdd labelColor err)
                updates)
  ∨ (∃ err, calls = [IssuesUpdateLabel_call labelToAdd labelColor err]).
Proof.
  intros n calls. subst calls. unfold ensureLabel.
  destruct (String.eqb labelToAdd ""); [by left|].
  destruct (String.eqb current "").
  - right. left. rewrite bind_calls, call_calls, call_res, call_world.
    do 3 eexists. split; [done|].
    destruct (negb _); [apply setColorLoop_calls|constructor].
  - destruct (_ && _); [|by left].
    right. right. apply updateLabelColor_calls.
Qed.

End ReconcileShape.

(** X2.  Every run of [updateLabels] starts with one listing of the
    labels; the removals follow, and only then comes what concerns the
    chosen label: nothing, or one add of it followed by color updates
    of it, or a single color update of it.  So a run adds at most once,
    and never removes after it has added or recolored. *)

Theorem reconciliation_call_order
    {W : Type} (g : NotifyService W) (result : ParseResult.t) (w : W) :
  let cfg := ClientConfig g in
  let n := PullRequest.Number (Config.PR cfg) in
  let labelToAdd := (labelDecision (Config.ResultLabels cfg) result).1 in
  let labelColor := (labelDecision (Config.ResultLabels cfg) result).2 in
  let listing := IssuesListLabels (ClientAPI g) n w in
  ∃ removals rest,
    Run.calls (updateLabels g result w)
    = IssuesListLabels_call n listing.1.1 listing.1.2 :: removals ++ rest
    ∧ Forall (fun c => is_remove c = true) removals
    ∧ (rest = []
       ∨ (∃ ls e updates,
            rest = IssuesAddLabels_call n [labelToAdd] ls e :: updates
            ∧ Forall (fun c => ∃ err,
                        c = IssuesUpdateLabel_call labelToAdd labelColor err)
                     updates)
       ∨ (∃ err, rest = [IssuesUpdateLabel_call labelToAdd labelColor err])).
Proof.
  intros cfg n labelToAdd labelColor listing.
  rewrite updateLabels_run. fold cfg n labelToAdd labelColor listing.
  destruct (listing.1.2) as [e|].
  - exists [], (Run.calls (ensureLabel g labelToAdd labelColor ""
                             ["remove labels: " +:+ e] listing.2)).
    split; [done|]. split; [constructor|]. apply ensureLabel_shape.
  - pose proof (removeLoop_calls g listing.1.1 labelToAdd "" listing.2) as Hrem.
    destruct (Run.res (removeLoop _ _ _ _ _)) as [[color err]|].
    + eexists _, _. rewrite prepend_calls. split; [done|].
      split; [exact Hrem|]. apply ensureLabel_shape.
    + eexists _, []. rewrite app_nil_r. split; [done|].
      split; [exact Hrem|by left].
Qed.

(** ** Failures and messages *)

Section Accounting.
Context {W : Type}.
Implicit Types (g : NotifyService W) (w : W).

Lemma failures_app (cs cs' : list Call) :
  failures (cs ++ cs') = (failures cs + failures cs')%nat.
Proof. unfold failures. by rewrite List.filter_app, length_app. Qed.

Lemma updateLabelColor_failures g labelToAdd labelColor errMsgs w :
  let r := updateLabelColor g labelToAdd labelColor errMsgs w in
  ∃ extra, Run.res r = Some (errMsgs ++ extra)
           ∧ length extra = failures (Run.calls r).
Proof.
  unfold updateLabelColor. run_simpl.
  destruct (IssuesUpdateLabel _ _ _ _).1 as [e|]; simpl.
  - by eexists.
  - exists []. by rewrite app_nil_r.
Qed.

Lemma setColorLoop_failures g labels labelToAdd labelColor errMsgs w :
  let r := setColorLoop g labels labelToAdd labelColor errMsgs w in
  ∃ extra, Run.res r = Some (errMsgs ++ extra)
           ∧ length extra = failures (Run.calls r).
Proof.
  revert errMsgs w.
  induction labels as [|l rest IH]; intros errMsgs w; simpl.
  { exists []. by rewrite app_nil_r. }
  destruct (_ && _); [|apply IH].
  rewrite bind_run.
  destruct (updateLabelColor_failures g labelToAdd labelColor errMsgs w)
    as (extra & -> & Hextra).
  match goal with
  | |- context [setColorLoop g rest labelToAdd labelColor ?m ?w'] =>
      destruct (IH m w') as (extra' & Hres & Hextra')
  end.
  exists (extra ++ extra').
  rewrite prepend_res, prepend_calls, Hres, failures_app, length_app, app_assoc.
  split; [done|]. by rewrite Hextra, Hextra'.
Qed.

Lemma ensureLabel_failures g labelToAdd labelColor current errMsgs w :
  let r := ensureLabel g labelToAdd labelColor current errMsgs w in
  ∃ extra, Run.res r = Some (errMsgs ++ extra)
           ∧ length extra = failures (Run.calls r).
Proof.
  unfold ensureLabel.
  destruct (String.eqb labelToAdd "").
  { exists []. by rewrite app_nil_r. }
  destruct (String.eqb current "").
  - rewrite bind_run, call_run. cbn [Run.res Run.world Run.calls fst snd].
    destruct (IssuesAddLabels _ _ _ _) as [[ls [e|]] w']; cbn [fst snd].
    + destruct (negb _).
      * match goal with
        | |- context [setColorLoop g ls labelToAdd labelColor ?m w'] =>
            destruct (setColorLoop_failures g ls labelToAdd labelColor m w')
              as (extra & Hres & Hextra)
        end.
        rewrite prepend_res, prepend_calls, Hres, failures_app.
        eexists. rewrite <- app_assoc. split; [done|].
        simpl. by rewrite Hextra.
      * by eexists.
    + destruct (negb _).
      * match goal with
        | |- context [setColorLoop g ls labelToAdd labelColor ?m w'] =>
            destruct (setColorLoop_failures g ls labelToAdd labelColor m w')
              as (extra & Hres & Hextra)
        end.
        rewrite prepend_res, prepend_calls, Hres, failures_app.
        exists extra. split; [done|]. simpl. by rewrite Hextra.
      * exists []. by rewrite app_nil_r.
  - destruct (_ && _); [apply updateLabelColor_failures|].
    exists []. by rewrite app_nil_r.
Qed.

Lemma removeLoop_failures g labels label labelColor w :
  let r := removeLoop g labels label labelColor w in
  match Run.res r with
  | Some (_, Some _) => failures (Run.calls r) = 1%nat
  | Some (_, None) => failures (Run.calls r) = 0%nat
  | None => True
  end.
Proof.
  intros r. subst r.
  pose proof (removeLoop_run g labels label labelColor w) as Hpost.
  pose proof (removeLoop_calls g labels label labelColor w) as Hcalls.
  unfold removeLoop_post in Hpost.
  assert (∀ cs, Forall (fun c => is_remove c = true) cs →
                forallb removal_succeeded cs = true → failures cs = 0%nat)
    as Hnone.
  { intros cs. unfold failures. induction 1 as [|c cs Hc _ IH]; [done|].
    simpl. intros [Hok Hrest]%andb_prop. destruct c; try done.
    simpl in *. rewrite Hok. simpl. by apply IH. }
  destruct (Run.res _) as [[color [e|]]|]; [| |done].
  - destruct Hpost as (pre & l & post & removals & resp & _ & _ & Heq
                       & Hresp & Hok & _).
    rewrite Heq in Hcalls |- *. apply Forall_app in Hcalls as [Hrem _].
    rewrite failures_app, (Hnone _ Hrem Hok). unfold failures. simpl.
    apply Z.eqb_neq in Hresp. by rewrite Hresp.
  - destruct Hpost as (Hok & _). by apply Hnone.
Qed.
End Accounting.

(** X3.  [updateLabels] reports every failure and nothing else: in a run
    that returns, the number of messages returned is the number of label
    calls that failed, where a removal that failed with a not-found
    response does not count as failed.  A run that does not return
    panicked on a removal that gave an error and a nil response. *)

Theorem every_failure_is_reported
    {W : Type} (g : NotifyService W) (result : ParseResult.t) (w : W) :
  let r := updateLabels g result w in
  match Run.res r with
  | Some errMsgs => length errMsgs = failures (Run.calls r)
  | None => nil_response_panic (Run.calls r)
  end.
Proof.
  intros r. subst r.
  destruct (Run.res (updateLabels g result w)) as [errMsgs|] eqn:Hres;
    [|by apply updateLabels_panic].
  revert Hres. rewrite updateLabels_run.
  destruct (IssuesListLabels _ _ _) as [[labels [e|]] w']; cbn [fst snd].
  - rewrite prepend_res, prepend_calls.
    match goal with
    | |- context [ensureLabel ?g ?a ?b ?c ?m ?w0] =>
        destruct (ensureLabel_failures g a b c m w0) as (extra & -> & Hextra)
    end.
    intros [= <-]. rewrite failures_app. simpl. by rewrite Hextra.
  - pose proof (removeLoop_failures g labels
                  (labelDecision (Config.ResultLabels (ClientConfig g)) result).1
                  "" w') as Hloop.
    cbv zeta in Hloop.
    destruct (Run.res (removeLoop _ _ _ _ _)) as [[color err]|]; [|done].
    rewrite prepend_res, prepend_calls.
    match goal with
    | |- context [ensureLabel ?g ?a ?b ?c ?m ?w0] =>
        destruct (ensureLabel_failures g a b c m w0) as (extra & -> & Hextra)
    end.
    intros [= <-].
    change (?x :: ?l ++ ?l') with ((x :: l) ++ l').
    rewrite failures_app, length_app, Hextra.
    change (failures (?x :: ?l)) with (failures ([x] ++ l)).
    rewrite failures_app. destruct err; rewrite Hloop; done.
Qed.

(** X4.  When the listing of the labels fails with [e], [updateLabels]
    removes nothing, its first message is "remove labels: " followed by
    [e], and it goes on as if the pull request carried no label: with no
    label chosen the listing is its only call, and with a label chosen it
    adds that label right after the listing, then only updates colors. *)

Theorem listing_failure_is_recorded
    {W : Type} (g : NotifyService W) (result : ParseResult.t) (w : W)
    (e : error) :
  let cfg := ClientConfig g in
  let n := PullRequest.Number (Config.PR cfg) in
  let labelToAdd := (labelDecision (Config.ResultLabels cfg) result).1 in
  let listing := IssuesListLabels (ClientAPI g) n w in
  let r := updateLabels g result w in
  listing.1.2 = Some e →
  (∃ extra, Run.res r = Some (("remove labels: " +:+ e) :: extra))
  ∧ removed_names (Run.calls r) = []
  ∧ (labelToAdd = "" →
     Run.calls r = [IssuesListLabels_call n listing.1.1 (Some e)])
  ∧ (labelToAdd ≠ "" →
     ∃ ls err updates,
       Run.calls r = IssuesListLabels_call n listing.1.1 (Some e)
                     :: IssuesAddLabels_call n [labelToAdd] ls err :: updates
       ∧ Forall (fun c => is_update c = true) updates).
Proof.
  intros cfg n labelToAdd listing r Hfail. subst r.
  rewrite updateLabels_run. fold cfg n labelToAdd listing. rewrite Hfail.
  rewrite prepend_res, prepend_calls.
  match goal with
  | |- context [ensureLabel ?g ?a ?b ?c ?m ?w0] =>
      destruct (ensureLabel_run g a b c m w0)
        as ((extra & Hres & _) & Hremoved & Hadd & _)
  end.
  split; [by exists extra|]. split; [by rewrite removed_names_app, Hremoved|].
  split.
  - intros ->. by rewrite ensureLabel_none.
  - intros Hlabel.
    destruct (Hadd Hlabel eq_refl) as (ls & err & updates & -> & ?).
    by exists ls, err, updates.
Qed.

Lemma listing_failure_is_recorded_witness :
  let g := Fixture.unlistableClient in
  let r := updateLabels g Fixture.noChanges tt in
  (∃ extra,
     Run.res r = Some ("remove labels: 503 Service Unavailable" :: extra))
  ∧ removed_names (Run.calls r) = []
  ∧ ∃ ls err updates,
      Run.calls r
      = IssuesListLabels_call 42 [] (Some "503 Service Unavailable")
        :: IssuesAddLabels_call 42 ["no-changes"] ls err :: updates
      ∧ Forall (fun c => is_update c = true) updates.
Proof.
  intros g r.
  destruct (listing_failure_is_recorded g Fixture.noChanges tt
              "503 Service Unavailable" eq_refl)
    as (Hres & Hremoved & _ & Hadd).
  split; [exact Hres|]. split; [exact Hremoved|].
  apply Hadd. discriminate.
Defined.

(** ** A pull request that needs no repair *)

Section Untouched.
Context {W : Type}.
Implicit Types (g : NotifyService W) (w : W).

Lemma removeLoop_nothing_stale g labels label labelColor w :
  staleNames (Config.ResultLabels (ClientConfig g)) label labels = [] →
  removeLoop g labels label labelColor w
  = Run.mk (Some (listedColor label labels labelColor, None)) w [].
Proof.
  revert labelColor.
  induction labels as [|l rest IH]; intros labelColor Hstale; [done|].
  unfold staleNames in Hstale. simpl in Hstale.
  destruct (is_stale _ label l) eqn:Hl; [done|].
  unfold is_stale in Hl. simpl.
  destruct (String.eqb (Label.GetName l) label); [by apply IH|].
  simpl in Hl. rewrite Hl. by apply IH.
Qed.

Lemma ensureLabel_nothing_to_do g labelToAdd labelColor current errMsgs w :
  labelToAdd = ""
  ∨ (current ≠ "" ∧ (labelColor = "" ∨ labelColor = current)) →
  ensureLabel g labelToAdd labelColor current errMsgs w
  = Run.mk (Some errMsgs) w [].
Proof.
  intros [->|[Hcurrent Hcolor]]; [done|].
  unfold ensureLabel.
  destruct (String.eqb labelToAdd ""); [done|].
  destruct (String.eqb_spec current ""); [done|].
  destruct Hcolor as [->| ->]; [done|].
  rewrite String.eqb_refl. by rewrite andb_false_r.
Qed.
End Untouched.

(** X5.  A pull request that is already as the result wants it is left
    alone: when the listing succeeds and holds no stale result label,
    and either no label is chosen or the chosen label is listed with a
    color that is not empty and that is the configured one where one is
    configured, [updateLabels] makes the listing its only call, leaves
    the world as the listing left it and returns no message. *)

Theorem reconciled_pull_request_is_left_alone
    {W : Type} (g : NotifyService W) (result : ParseResult.t) (w : W) :
  let cfg := ClientConfig g in
  let n := PullRequest.Number (Config.PR cfg) in
  let labelToAdd := (labelDecision (Config.ResultLabels cfg) result).1 in
  let labelColor := (labelDecision (Config.ResultLabels cfg) result).2 in
  let listing := IssuesListLabels (ClientAPI g) n w in
  let current := listedColor labelToAdd listing.1.1 "" in
  listing.1.2 = None →
  staleNames (Config.ResultLabels cfg) labelToAdd listing.1.1 = [] →
  labelToAdd = ""
  ∨ (current ≠ "" ∧ (labelColor = "" ∨ labelColor = current)) →
  updateLabels g result w
  = Run.mk (Some []) listing.2 [IssuesListLabels_call n listing.1.1 None].
Proof.
  intros cfg n labelToAdd labelColor listing current Hlisted Hstale Htarget.
  rewrite updateLabels_run. fold cfg n labelToAdd labelColor listing.
  rewrite Hlisted, removeLoop_nothing_stale by done.
  cbn [Run.res Run.world Run.calls]. fold current.
  by rewrite ensureLabel_nothing_to_do.
Qed.

Lemma reconciled_pull_request_is_left_alone_witness :
  let listed :=
    [Label.mk "unrelated" "cccccc"; Label.mk "no-changes" "0e8a16"] in
  updateLabels (Fixture.labelClient listed Fixture.ok200) Fixture.noChanges tt
  = Run.mk (Some []) tt [IssuesListLabels_call 42 listed None].
Proof.
  intros listed.
  refine (reconciled_pull_request_is_left_alone
            (Fixture.labelClient listed Fixture.ok200) Fixture.noChanges tt
            eq_refl eq_refl _).
  right. split; [discriminate|]. by right.
Defined.

(** ** Two runs against the reference label client *)

Section StoreLists.
Implicit Types (att names : list string) (rl : ResultLabels.t).

Lemma staleNames_named rl label (color : string → string) att :
  staleNames rl label (map (fun n => Label.mk n (color n)) att)
  = List.filter (stale_name rl label) att.
Proof.
  unfold staleNames. induction att as [|n att IH]; [done|]. simpl.
  unfold is_stale at 1. simpl. fold (stale_name rl label n).
  destruct (stale_name rl label n); simpl; by rewrite IH.
Qed.

Lemma listedColor_named label (color : string → string) att labelColor :
  listedColor label (map (fun n => Label.mk n (color n)) att) labelColor
  = if existsb (String.eqb label) att then color label else labelColor.
Proof.
  unfold listedColor. revert labelColor.
  induction att as [|n att IH]; intros labelColor; [done|]. simpl.
  rewrite IH, (String.eqb_sym label n).
  destruct (String.eqb_spec n label) as [->|_]; simpl; [|done].
  by destruct (existsb _ _).
Qed.

Lemma filter_twice {A} (f h : A → bool) (l : list A) :
  List.filter f (List.filter h l) = List.filter (fun x => h x && f x) l.
Proof.
  induction l as [|x l IH]; [done|]. simpl.
  destruct (h x); simpl; [|done]. destruct (f x); by rewrite IH.
Qed.

Lemma existsb_stale rl label att n :
  In n att →
  existsb (String.eqb n) (List.filter (stale_name rl label) att)
  = stale_name rl label n.
Proof.
  intros Hin. destruct (stale_name rl label n) eqn:Hn.
  - apply existsb_exists. exists n. split; [|apply String.eqb_refl].
    by apply List.filter_In.
  - apply not_true_is_false. intros (x & Hx & Heq)%existsb_exists.
    apply String.eqb_eq in Heq as <-.
    apply List.filter_In in Hx as [_ Hx]. congruence.
Qed.

Lemma existsb_kept rl label att :
  existsb (String.eqb label)
          (List.filter (fun n => negb (stale_name rl label n)) att)
  = existsb (String.eqb label) att.
Proof.
  induction att as [|n att IH]; [done|]. simpl.
  destruct (String.eqb_spec label n) as [<-|Hne]; simpl.
  - unfold stale_name. rewrite String.eqb_refl. simpl.
    by rewrite String.eqb_refl.
  - destruct (negb _); simpl; [|done].
    by destruct (String.eqb_spec label n).
Qed.
End StoreLists.

Section StoreRuns.
Context (g : NotifyService LabelStore.t).
Hypothesis Hapi : ClientAPI g = LabelStore.api.
Implicit Types (s : LabelStore.t).

Lemma store_removals s names :
  LabelStore.repo (foldl LabelStore.removeLabel s names) = LabelStore.repo s
  ∧ LabelStore.attached (foldl LabelStore.removeLabel s names)
    = List.filter (fun n => negb (existsb (String.eqb n) names))
                  (LabelStore.attached s).
Proof.
  revert s. induction names as [|k names IH]; intros s; simpl.
  { split; [done|]. induction (LabelStore.attached s) as [|n l IHl]; [done|].
    simpl. by rewrite <- IHl. }
  destruct (IH (LabelStore.removeLabel s k)) as [-> ->]. split; [done|].
  simpl. rewrite filter_twice. apply List.filter_ext. intros n.
  by rewrite negb_orb.
Qed.

Lemma store_removeLoop labels label labelColor s :
  let r := removeLoop g labels label labelColor s in
  Run.res r = Some (listedColor label labels labelColor, None)
  ∧ Run.world r
    = foldl LabelStore.removeLabel s
        (staleNames (Config.ResultLabels (ClientConfig g)) label labels).
Proof.
  revert labelColor s.
  induction labels as [|l rest IH]; intros labelColor s; [done|].
  cbv zeta. unfold staleNames, is_stale. simpl.
  destruct (String.eqb (Label.GetName l) label); simpl; [apply IH|].
  destruct (ResultLabels.IsResultLabel _ _); simpl; [|apply IH].
  rewrite bind_res, bind_world, call_res, call_world, Hapi. simpl.
  destruct (LabelStore.isAttached s (Label.GetName l)); simpl; apply IH.
Qed.

(** The store after the removals of a run that listed the store. *)
Lemma store_after_removals label s :
  let rl := Config.ResultLabels (ClientConfig g) in
  let r := removeLoop g (LabelStore.labels s) label "" s in
  Run.res r
  = Some (if LabelStore.isAttached s label then LabelStore.colorOf s label
          else "", None)
  ∧ Run.world r
    = LabelStore.mk (LabelStore.repo s)
        (List.filter (fun n => negb (stale_name rl label n))
                     (LabelStore.attached s)).
Proof.
  intros rl r. subst r.
  destruct (store_removeLoop (LabelStore.labels s) label "" s) as [Hres Hworld].
  rewrite Hres, Hworld. clear Hres Hworld. unfold LabelStore.labels.
  rewrite listedColor_named, staleNames_named. split; [done|].
  subst rl.
  destruct (store_removals s
              (List.filter
                 (stale_name (Config.ResultLabels (ClientConfig g)) label)
                 (LabelStore.attached s)))
    as [Hrepo Hatt].
  destruct (foldl _ _ _) as [repo' att']. simpl in *. subst.
  f_equal. apply List.filter_ext_in. intros n Hin.
  by rewrite existsb_stale.
Qed.

Lemma store_updateLabelColor label color errMsgs s :
  is_Some (LabelStore.repo s !! label) →
  updateLabelColor g label color errMsgs s
  = Run.mk (Some errMsgs) (LabelStore.updateLabel s label color)
           [IssuesUpdateLabel_call label color None].
Proof.
  intros [c Hc]. unfold updateLabelColor.
  rewrite bind_run, call_run, Hapi. simpl. by rewrite Hc.
Qed.

Lemma store_setColorLoop labels label color errMsgs s :
  is_Some (LabelStore.repo s !! label) →
  let r := setColorLoop g labels label color errMsgs s in
  Run.res r = Some errMsgs
  ∧ Run.world r
    = if existsb (fun l => String.eqb label (Label.GetName l)
                           && negb (String.eqb (Label.GetColor l) color))
                 labels
      then LabelStore.updateLabel s label color else s.
Proof.
  revert s. induction labels as [|l rest IH]; intros s Hs; [done|].
  cbv zeta. simpl. destruct (_ && _); simpl; [|by apply IH].
  rewrite bind_res, bind_world, store_updateLabelColor by done.
  cbn [Run.res Run.world].
  destruct (IH (LabelStore.updateLabel s label color)) as [-> ->].
  { simpl. by rewrite lookup_insert_eq. }
  split; [done|]. destruct (existsb _ _); [|done].
  unfold LabelStore.updateLabel. simpl. by rewrite insert_insert_eq.
Qed.

Lemma store_ensureLabel label color s :
  label ≠ "" → LabelStore.colored s label →
  let current :=
    if LabelStore.isAttached s label then LabelStore.colorOf s label else "" in
  let r := ensureLabel g label color current [] s in
  Run.res r = Some []
  ∧ LabelStore.attached (Run.world r)
    = (if LabelStore.isAttached s label then LabelStore.attached s
       else LabelStore.attached s ++ [label])
  ∧ LabelStore.colorOf (Run.world r) label ≠ ""
  ∧ (color = "" ∨ color = LabelStore.colorOf (Run.world r) label).
Proof.
  intros Hlabel Hcolored current r. subst r. unfold ensureLabel.
  destruct (String.eqb_spec label ""); [done|].
  destruct (String.eqb_spec current "") as [Hcur|Hcur].
  - rewrite bind_res, bind_world, call_res, call_world, Hapi.
    cbn [IssuesAddLabels LabelStore.api fst snd foldl].
    set (s2 := LabelStore.addLabel s label).
    assert (is_Some (LabelStore.repo s2 !! label)) as Hsome.
    { subst s2. unfold LabelStore.addLabel. simpl.
      destruct (LabelStore.repo s !! label) eqn:Hl; [by rewrite Hl|].
      by rewrite lookup_insert_eq. }
    assert (LabelStore.colorOf s2 label ≠ "") as Hc2.
    { subst s2. unfold LabelStore.colorOf, LabelStore.addLabel. simpl.
      destruct (LabelStore.repo s !! label) as [c|] eqn:Hl.
      - rewrite Hl. simpl. intros ->. by apply Hcolored.
      - by rewrite lookup_insert_eq. }
    assert (In label (LabelStore.attached s2)) as Hin.
    { subst s2. unfold LabelStore.addLabel, LabelStore.isAttached. simpl.
      destruct (existsb _ _) eqn:Hex.
      - apply existsb_exists in Hex as (x & Hx & <-%String.eqb_eq). done.
      - apply in_or_app. right. by left. }
    destruct (String.eqb_spec color "") as [->|Hcolor]; cbn [negb].
    { cbn [ret Run.res Run.world]. repeat split; try done. by left. }
    destruct (store_setColorLoop (LabelStore.labels s2) label color [] s2 Hsome)
      as [-> ->].
    split; [done|].
    destruct (existsb _ _) eqn:Hex.
    + simpl. unfold LabelStore.colorOf. simpl. rewrite lookup_insert_eq. simpl.
      repeat split; try done. by right.
    + repeat split; try done. right.
      apply not_true_iff_false in Hex.
      destruct (String.eqb_spec color (LabelStore.colorOf s2 label));
        [done|].
      exfalso. apply Hex, existsb_exists.
      exists (Label.mk label (LabelStore.colorOf s2 label)). split.
      * unfold LabelStore.labels. apply in_map_iff. by exists label.
      * simpl. rewrite String.eqb_refl. simpl.
        apply negb_true_iff, String.eqb_neq. congruence.
  - assert (LabelStore.isAttached s label = true
            ∧ current = LabelStore.colorOf s label) as [Hatt Hcurrent].
    { subst current. by destruct (LabelStore.isAttached s label). }
    rewrite Hatt. rewrite Hcurrent in Hcur |- *.
    destruct (String.eqb_spec color "") as [->|Hcolor]; cbn [negb andb].
    { cbn [ret Run.res Run.world]. repeat split; try done. by left. }
    destruct (String.eqb_spec color (LabelStore.colorOf s label)) as [->|Hne];
      cbn [negb].
    { cbn [ret Run.res Run.world]. repeat split; try done. by right. }
    rewrite store_updateLabelColor.
    2:{ unfold LabelStore.colorOf in Hcur.
        by destruct (LabelStore.repo s !! label). }
    cbn [Run.res Run.world]. unfold LabelStore.colorOf. simpl.
    rewrite lookup_insert_eq. simpl. repeat split; try done. by right.
Qed.
End StoreRuns.

Section StoreReconcile.
Context (g : NotifyService LabelStore.t).
Hypothesis Hapi : ClientAPI g = LabelStore.api.
Implicit Types (s : LabelStore.t).

Lemma store_first_run result s :
  let rl := Config.ResultLabels (ClientConfig g) in
  let labelToAdd := (labelDecision rl result).1 in
  let labelColor := (labelDecision rl result).2 in
  (labelToAdd ≠ "" → LabelStore.colored s labelToAdd) →
  Run.res (updateLabels g result s) = Some []
  ∧ LabelStore.settled rl labelToAdd labelColor
      (Run.world (updateLabels g result s)).
Proof.
  intros rl labelToAdd labelColor Hcolored.
  rewrite updateLabels_run. fold rl labelToAdd labelColor.
  rewrite Hapi. cbn [IssuesListLabels LabelStore.api fst snd].
  destruct (store_after_removals g Hapi labelToAdd s) as [Hres Hworld].
  fold rl in Hworld. rewrite Hres, prepend_res, prepend_world, Hworld.
  set (s1 := LabelStore.mk _ _).
  assert (Forall (fun name => stale_name rl labelToAdd name = false)
                 (LabelStore.attached s1)) as Hclean.
  { apply List.Forall_forall. intros n [_ Hn]%List.filter_In.
    by apply negb_true_iff. }
  assert (LabelStore.isAttached s1 labelToAdd
          = LabelStore.isAttached s labelToAdd) as Hatt
    by apply existsb_kept.
  destruct (String.eqb_spec labelToAdd "") as [Hnone|Hsome].
  { rewrite Hnone. rewrite ensureLabel_none. cbn [Run.res Run.world].
    split; [done|]. split; [|by left]. by rewrite <- Hnone. }
  rewrite <- Hatt.
  change (LabelStore.colorOf s labelToAdd)
    with (LabelStore.colorOf s1 labelToAdd).
  destruct (store_ensureLabel g Hapi labelToAdd labelColor s1 Hsome
              (Hcolored Hsome))
    as (Hr & Hattached & Hcolor & Hconf).
  split; [done|]. split.
  - rewrite Hattached. destruct (LabelStore.isAttached s1 labelToAdd); [done|].
    apply Forall_app. split; [done|]. constructor; [|done].
    unfold stale_name. by rewrite String.eqb_refl.
  - right. split; [|done].
    unfold LabelStore.isAttached at 1. rewrite Hattached.
    destruct (LabelStore.isAttached s1 labelToAdd) eqn:Hin; [done|].
    rewrite existsb_app. simpl. rewrite String.eqb_refl.
    by rewrite orb_true_r.
Qed.

Lemma store_settled_run result s :
  let cfg := ClientConfig g in
  let rl := Config.ResultLabels cfg in
  LabelStore.settled rl (labelDecision rl result).1 (labelDecision rl result).2
                     s →
  updateLabels g result s
  = Run.mk (Some []) s
      [IssuesListLabels_call (PullRequest.Number (Config.PR cfg))
         (LabelStore.labels s) None].
Proof.
  intros cfg rl [Hclean Htarget].
  rewrite updateLabels_run, Hapi.
  cbn [IssuesListLabels LabelStore.api fst snd].
  assert (staleNames (Config.ResultLabels (ClientConfig g))
            (labelDecision (Config.ResultLabels (ClientConfig g)) result).1
            (LabelStore.labels s) = []) as Hstale.
  { unfold LabelStore.labels. rewrite staleNames_named. clear Htarget.
    induction Hclean as [|n att Hn _ IH]; [done|]. simpl.
    change (stale_name rl (labelDecision rl result).1 n = false) in Hn.
    subst rl cfg. by rewrite Hn. }
  rewrite removeLoop_nothing_stale by done.
  cbn [Run.res Run.world Run.calls].
  rewrite ensureLabel_nothing_to_do; [done|].
  destruct Htarget as [?|(Hatt & Hcolor & Hconf)]; [by left|right].
  unfold LabelStore.labels. rewrite listedColor_named.
  unfold LabelStore.isAttached in Hatt. subst rl cfg. by rewrite Hatt.
Qed.
End StoreReconcile.

(** X6.  Against the reference label client, a second run changes
    nothing.  When the repository does not hold the chosen label with
    an empty color, the first run of [updateLabels] returns no message,
    and a second run with the same result, started in the store that the
    first run left, makes the listing its only call, leaves the store as
    it is and returns no message. *)

Theorem reconciliation_settles_the_store
    (g : NotifyService LabelStore.t) (result : ParseResult.t)
    (s : LabelStore.t) :
  let cfg := ClientConfig g in
  let labelToAdd := (labelDecision (Config.ResultLabels cfg) result).1 in
  let first := updateLabels g result s in
  let second := updateLabels g result (Run.world first) in
  ClientAPI g = LabelStore.api →
  (labelToAdd ≠ "" → LabelStore.colored s labelToAdd) →
  Run.res first = Some []
  ∧ second
    = Run.mk (Some []) (Run.world first)
        [IssuesListLabels_call (PullRequest.Number (Config.PR cfg))
           (LabelStore.labels (Run.world first)) None].
Proof.
  intros cfg labelToAdd first second Hapi Hcolored.
  destruct (store_first_run g Hapi result s Hcolored) as [Hres Hsettled].
  split; [done|]. by apply store_settled_run.
Qed.

Lemma reconciliation_settles_the_store_witness :
  let g := Fixture.storeClient in
  let first := updateLabels g Fixture.noChanges Fixture.store in
  Run.res first = Some []
  ∧ updateLabels g Fixture.noChanges (Run.world first)
    = Run.mk (Some []) (Run.world first)
        [IssuesListLabels_call 42 (LabelStore.labels (Run.world first)) None].
Proof.
  intros g first.
  refine (reconciliation_settles_the_store g Fixture.noChanges Fixture.store
            eq_refl _).
  intros _. unfold LabelStore.colored. vm_compute. discriminate.
Defined.




(** ** The calls of [Notify], in order *)

Section NotifyShape.
Context {W : Type}.
Implicit Types (g : NotifyService W) (w : W).

Lemma notifyWith_eq g param result template w :
  let cfg := ClientConfig g in
  let isPlan := isPlanParser (Config.Parser cfg) in
  let code := ParseResult.ExitCode result in
  let labelled :=
    if isPlan && PullRequest.IsNumber (Config.PR cfg)
       && ResultLabels.HasAnyLabelDefined (Config.ResultLabels cfg)
    then updateLabels g result w else Run.mk (Some []) w [] in
  notifyWith g param result template w =
    match Run.res labelled with
    | None => Run.mk None (Run.world labelled) (Run.calls labelled)
    | Some errMsgs =>
        let value := commonTemplate cfg param result errMsgs in
        let rendered := Template.Execute template value in
        Run.prepend
          (Run.calls labelled
           ++ [Execute_call template value rendered.1 rendered.2])
          match rendered.2 with
          | Some err => Run.mk (Some (code, Some err)) (Run.world labelled) []
          | None =>
              let c := resolvePullRequest g cfg (Run.world labelled) in
              match Run.res c with
              | Some (_, Some err) =>
                  Run.mk (Some (code, Some err)) (Run.world c) (Run.calls c)
              | Some (cfg', None) =>
                  Run.prepend (Run.calls c)
                    (postComment g cfg' param result isPlan rendered.1
                       (Run.world c))
              | None => Run.mk None (Run.world c) (Run.calls c)
              end
          end
    end.
Proof.
  intros cfg isPlan code labelled. unfold notifyWith. fold cfg isPlan code.
  rewrite bind_run.
  match goal with
  | |- context [Run.res (?m w)] =>
      replace (m w) with labelled
  end.
  2:{ subst labelled. destruct (_ && _); [|done].
      rewrite bind_run. destruct (updateLabels g result w) as [[msgs|] w' cs];
        cbn [Run.res Run.world Run.calls]; [|done].
      unfold ret. by rewrite prepend_mk, app_nil_r. }
  destruct (Run.res labelled) as [errMsgs|]; [|done].
  rewrite bind_run, call_run. cbn [Run.res Run.world Run.calls fst snd].
  rewrite prepend_prepend. f_equal.
  destruct (Template.Execute template _) as [body [err|]]; cbn [fst snd];
    [done|].
  rewrite bind_run.
  destruct (Run.res (resolvePullRequest _ _ _)) as [[cfg' [err|]]|];
    cbn [fst snd]; [|done|done].
  unfold ret. by rewrite prepend_mk, app_nil_r.
Qed.

End NotifyShape.

Section NotifyCalls.
Context {W : Type}.
Implicit Types (g : NotifyService W) (w : W).

Lemma postComment_eq g cfg param result isPlan body w :
  let marker :=
    getEmbeddedComment (metadata g) cfg (ParamExec.CIName param) isPlan w in
  let opt := PostOptions.mk (PullRequest.Number (Config.PR cfg))
                            (PullRequest.Revision (Config.PR cfg)) in
  let code := ParseResult.ExitCode result in
  postComment g cfg param result isPlan body w =
    match marker.2 with
    | Some err => Run.mk (Some (code, Some err)) w []
    | None =>
        let posted := Post (Comment g) (body +:+ marker.1) opt w in
        Run.mk (Some (code, posted.1)) posted.2
               [CommentPost_call (body +:+ marker.1) opt posted.1]
    end.
Proof.
  intros marker opt code. unfold postComment. fold marker opt code.
  rewrite bind_run. cbn [Run.res Run.world Run.calls].
  rewrite prepend_nil. subst marker.
  destruct (getEmbeddedComment _ _ _ _ _) as [marker [err|]]; cbn [fst snd];
    [done|].
  rewrite bind_run, call_run. cbn [Run.res Run.world Run.calls].
  by destruct (Post _ _ _ _).1.
Qed.

Lemma resolvePullRequest_commits g cfg w :
  Forall (fun c => is_commits_call c = true)
         (Run.calls (resolvePullRequest g cfg w)).
Proof.
  unfold resolvePullRequest.
  destruct (isApplyParser _); [|constructor].
  run_simpl. constructor; [done|].
  destruct (MergedPRNumber _ _ _).1.2; [|constructor].
  destruct (negb _); [|constructor].
  run_simpl. constructor; [done|].
  destruct (CommitsList _ _ _).1.2; constructor.
Qed.

Lemma resolvePullRequest_not_apply g cfg w :
  isApplyParser (Config.Parser (ClientConfig g)) = false →
  resolvePullRequest g cfg w = Run.mk (Some (cfg, None)) w [].
Proof. unfold resolvePullRequest. by intros ->. Qed.

Lemma postComment_posts g cfg param result isPlan body w :
  Forall (fun c => is_post c = true)
         (Run.calls (postComment g cfg param result isPlan body w)).
Proof.
  rewrite postComment_eq. cbv zeta.
  destruct (getEmbeddedComment _ _ _ _ _).2; by repeat constructor.
Qed.

(** What follows the labelling, in every run: the rendering, the calls
    to the commits service, the post. *)
Lemma notifyWith_after_labelling g param result template w :
  let cfg := ClientConfig g in
  let labelled :=
    if isPlanParser (Config.Parser cfg) && PullRequest.IsNumber (Config.PR cfg)
       && ResultLabels.HasAnyLabelDefined (Config.ResultLabels cfg)
    then updateLabels g result w else Run.mk (Some []) w [] in
  ∃ rest,
    Run.calls (notifyWith g param result template w)
    = Run.calls labelled ++ rest
    ∧ Forall (fun c => is_label_call c = false) rest.
Proof.
  intros cfg labelled. rewrite notifyWith_eq. fold cfg labelled.
  destruct (Run.res labelled) as [errMsgs|].
  2:{ exists []. by rewrite app_nil_r. }
  cbv zeta. rewrite prepend_calls, <- app_assoc.
  eexists. split; [done|].
  constructor; [done|].
  destruct (Template.Execute _ _).2; [constructor|].
  pose proof (resolvePullRequest_commits g cfg (Run.world labelled)) as Hc.
  assert (Forall (fun c => is_label_call c = false)
                 (Run.calls (resolvePullRequest g cfg (Run.world labelled))))
    as Hc'.
  { eapply Forall_impl; [apply Hc|]. by intros []. }
  destruct (Run.res (resolvePullRequest _ _ _)) as [[cfg' [err|]]|];
    [done| |done].
  rewrite prepend_calls. apply Forall_app. split; [done|].
  eapply Forall_impl; [apply postComment_posts|]. by intros [].
Qed.
End NotifyCalls.

(** X7.  [Notify] touches the labels only in a plan run on a pull
    request with a result label configured: when the parser is no plan
    parser, or no pull-request number is configured, or no result label
    is configured, no run of [Notify] calls the label client. *)

Theorem labels_untouched_unless_plan_on_pull_request
    {W : Type} (g : NotifyService W) (param : ParamExec.t) (w : W) :
  let cfg := ClientConfig g in
  isPlanParser (Config.Parser cfg) && PullRequest.IsNumber (Config.PR cfg)
  && ResultLabels.HasAnyLabelDefined (Config.ResultLabels cfg) = false →
  Forall (fun c => is_label_call c = false) (Run.calls (Notify g param w)).
Proof.
  intros cfg Hoff.
  assert (∀ result template,
            Forall (fun c => is_label_call c = false)
                   (Run.calls (notifyWith g param result template w))) as Hflow.
  { intros result template.
    destruct (notifyWith_after_labelling g param result template w)
      as (rest & -> & Hrest).
    fold cfg. by rewrite Hoff. }
  unfold Notify.
  destruct (ParseResult.HasParseError _); [apply Hflow|].
  destruct (ParseResult.Error _); [constructor|].
  destruct (String.eqb _ _); [constructor|apply Hflow].
Qed.

Lemma labels_untouched_unless_plan_on_pull_request_witness :
  Forall (fun c => is_label_call c = false)
         (Run.calls (Notify Fixture.applyClient (Fixture.param 0) tt)).
Proof.
  exact (labels_untouched_unless_plan_on_pull_request
           Fixture.applyClient (Fixture.param 0) tt eq_refl).
Defined.

Section NotifyTail.
Context {W : Type}.
Implicit Types (g : NotifyService W) (w : W).

(** [Notify] returns before any call, or goes on with the template that
    the parse result selects. *)
Lemma Notify_cases g param w :
  let cfg := ClientConfig g in
  let result := parseOutput cfg param in
  Notify g param w
  = Run.mk (Some (ParseResult.ExitCode result, ParseResult.Error result)) w []
  ∨ Notify g param w
    = notifyWith g param result
        (if ParseResult.HasParseError result
         then Config.ParseErrorTemplate cfg else Config.Template cfg) w.
Proof.
  intros cfg result. unfold Notify. fold cfg result.
  destruct (ParseResult.HasParseError result); [by right|].
  destruct (ParseResult.Error result); [by left|].
  destruct (String.eqb _ _); [by left|by right].
Qed.

(** An embedded comment built without error is what [Convert] made of
    the data that [SetCIEnv] returned for the data of the
    configuration. *)
Lemma getEmbeddedComment_built (md : Metadata W) cfg ciName isPlan w marker :
  getEmbeddedComment md cfg ciName isPlan w = (marker, None) →
  ∃ data,
    SetCIEnv md ciName (embeddedData cfg isPlan) w = (data, None)
    ∧ Convert md data = (marker, None).
Proof.
  unfold getEmbeddedComment.
  destruct (SetCIEnv md ciName _ w) as [data [e|]]; [done|].
  destruct (Convert md data) as [text [e|]] eqn:Hconvert; [done|].
  intros [= <-]. by exists data.
Qed.

(** The pull request is all that the apply block changes in the copy of
    the configuration. *)
Lemma resolvePullRequest_keeps g cfg w cfg' err :
  Run.res (resolvePullRequest g cfg w) = Some (cfg', err) →
  cfg' = Config.mk (Config.PR cfg') (Config.CI cfg) (Config.Parser cfg)
           (Config.UseRawOutput cfg) (Config.Template cfg)
           (Config.ParseErrorTemplate cfg) (Config.ResultLabels cfg)
           (Config.Vars cfg) (Config.EmbeddedVarNames cfg)
           (Config.Templates cfg).
Proof.
  unfold resolvePullRequest.
  destruct (isApplyParser _); [|intros [= <- <-]; by destruct cfg].
  rewrite bind_res, call_res, call_world.
  destruct (MergedPRNumber _ _ _).1.2; cbn [ret Run.res].
  - destruct (negb _); [|intros [= <- <-]; by destruct cfg].
    rewrite bind_res, call_res, call_world.
    destruct (CommitsList _ _ _).1.2; intros [= <- <-]; by destruct cfg.
  - intros [= <- <-]. done.
Qed.

Lemma notifyWith_tail g param result template w :
  let cfg := ClientConfig g in
  let isPlan := isPlanParser (Config.Parser cfg) in
  let code := ParseResult.ExitCode result in
  let r := notifyWith g param result template w in
  Forall (fun c => is_post c = false) (Run.calls r)
  ∨ ∃ pre value rendered cfg' w' data marker err,
      Run.calls r
      = pre ++ [CommentPost_call (rendered +:+ marker)
                  (PostOptions.mk (PullRequest.Number (Config.PR cfg'))
                                  (PullRequest.Revision (Config.PR cfg')))
                  err]
      ∧ Forall (fun c => is_post c = false) pre
      ∧ Execute_call template value rendered None ∈ pre
      ∧ cfg' = Config.mk (Config.PR cfg') (Config.CI cfg) (Config.Parser cfg)
                 (Config.UseRawOutput cfg) (Config.Template cfg)
                 (Config.ParseErrorTemplate cfg) (Config.ResultLabels cfg)
                 (Config.Vars cfg) (Config.EmbeddedVarNames cfg)
                 (Config.Templates cfg)
      ∧ SetCIEnv (metadata g) (ParamExec.CIName param)
                 (embeddedData cfg' isPlan) w' = (data, None)
      ∧ Convert (metadata g) data = (marker, None)
      ∧ Run.res r = Some (code, err).
Proof.
  intros cfg isPlan code r. subst r. rewrite notifyWith_eq.
  fold cfg isPlan code.
  match goal with
  | |- context [Run.res ?l] =>
      match l with
      | (if _ then _ else _) => set (labelled := l)
      end
  end.
  assert (Forall (fun c => is_post c = false) (Run.calls labelled)) as Hlab.
  { subst labelled. destruct (_ && _); [|constructor].
    eapply Forall_impl; [apply updateLabels_label_calls|]. by intros ? [??]. }
  destruct (Run.res labelled) as [errMsgs|]; [|by left].
  cbv zeta. set (value := commonTemplate _ _ _ _).
  destruct (Template.Execute template value) as [rendered [e|]] eqn:Hexec;
    cbn [fst snd].
  { left. rewrite prepend_mk, app_nil_r. apply Forall_app.
    split; [done|by repeat constructor]. }
  pose proof (resolvePullRequest_commits g cfg (Run.world labelled)) as Hc.
  pose proof (resolvePullRequest_keeps g cfg (Run.world labelled)) as Hkeep.
  assert (Forall (fun c => is_post c = false)
                 (Run.calls (resolvePullRequest g cfg (Run.world labelled))))
    as Hc'.
  { eapply Forall_impl; [apply Hc|]. by intros []. }
  assert (Forall (fun c => is_post c = false)
            ((Run.calls labelled ++ [Execute_call template value rendered None])
             ++ Run.calls (resolvePullRequest g cfg (Run.world labelled))))
    as Hpre.
  { repeat (apply Forall_app; split); [done|by repeat constructor|done]. }
  destruct (Run.res (resolvePullRequest _ _ _)) as [[cfg' [e|]]|];
    [by left| |by left].
  specialize (Hkeep cfg' None eq_refl).
  rewrite postComment_eq. cbv zeta.
  destruct (getEmbeddedComment _ _ _ _ _) as [marker [e|]] eqn:Hmarker;
    cbn [fst snd].
  { left. rewrite !prepend_mk, !app_nil_r. done. }
  apply getEmbeddedComment_built in Hmarker as (data & Hset & Hconvert).
  right. rewrite !prepend_mk.
  eexists _, value, rendered, cfg', _, data, marker, _.
  cbn [Run.res Run.calls]. rewrite app_assoc.
  split; [done|]. split; [done|]. split.
  { apply elem_of_app. left. apply elem_of_app. right. by left. }
  done.
Qed.
End NotifyTail.


(** X8.  [Notify] posts at most one comment, and as its last call: a
    run either posts nothing, or ends with the one post.  That post
    comes after a rendering that gave no error; its body is the text of
    that rendering followed by the embedded comment, which is what
    [Convert] made of the data that [SetCIEnv] returned for the data of
    a configuration that differs from the configured one in the pull
    request only; the post is addressed to the pull request of that
    same configuration, and [Notify] returns the exit code of the caller
    together with the error of the post, nil when the post succeeded. *)
Theorem comment_is_posted_last_and_once
    {W : Type} (g : NotifyService W) (param : ParamExec.t) (w : W) :
  let cfg := ClientConfig g in
  let isPlan := isPlanParser (Config.Parser cfg) in
  let r := Notify g param w in
  Forall (fun c => is_post c = false) (Run.calls r)
  ∨ ∃ pre template value rendered cfg' w' data marker err,
      Run.calls r
      = pre ++ [CommentPost_call (rendered +:+ marker)
                  (PostOptions.mk (PullRequest.Number (Config.PR cfg'))
                                  (PullRequest.Revision (Config.PR cfg')))
                  err]
      ∧ Forall (fun c => is_post c = false) pre
      ∧ Execute_call template value rendered None ∈ pre
      ∧ cfg' = Config.mk (Config.PR cfg') (Config.CI cfg) (Config.Parser cfg)
                 (Config.UseRawOutput cfg) (Config.Template cfg)
                 (Config.ParseErrorTemplate cfg) (Config.ResultLabels cfg)
                 (Config.Vars cfg) (Config.EmbeddedVarNames cfg)
                 (Config.Templates cfg)
      ∧ SetCIEnv (metadata g) (ParamExec.CIName param)
                 (embeddedData cfg' isPlan) w' = (data, None)
      ∧ Convert (metadata g) data = (marker, None)
      ∧ Run.res r = Some (ParamExec.ExitCode param, err).
Proof.
  intros cfg isPlan r. subst r.
  destruct (Notify_cases g param w) as [-> | ->]; [left; constructor|].
  match goal with
  | |- context [notifyWith g param ?result ?t w] =>
      destruct (notifyWith_tail g param result t w)
        as [Hnone|(pre & value & rendered & cfg' & w' & data & marker & err
                   & H)];
        [by left|right]
  end.
  by eexists pre, _, value, rendered, cfg', w', data, marker, err.
Qed.

Section Fatal.
Context {W : Type}.
Implicit Types (g : NotifyService W) (w : W).

Lemma updateLabels_only_label_calls g result w :
  Forall (fun c => is_label_call c = true)
         (Run.calls (updateLabels g result w)).
Proof.
  unfold updateLabels. run_simpl. apply Forall_app. split.
  - unfold removeResultLabels. run_simpl. constructor; [done|].
    destruct (snd _); [constructor|].
    eapply Forall_impl; [apply removeLoop_calls|]. by intros [].
  - destruct (Run.res _); [|constructor].
    eapply Forall_impl; [apply ensureLabel_calls|].
    intros c [(n & ls & err & ->)|(err & ->)]; done.
Qed.

Lemma resolvePullRequest_failure g cfg w c e :
  c ∈ Run.calls (resolvePullRequest g cfg w) → fails_with e c →
  ∃ cfg', Run.res (resolvePullRequest g cfg w) = Some (cfg', Some e).
Proof.
  unfold resolvePullRequest.
  destruct (isApplyParser _); [|by intros ?%elem_of_nil].
  rewrite bind_run, call_run. cbn [Run.res Run.world Run.calls fst snd].
  destruct (MergedPRNumber _ _ _) as [[n [e0|]] w']; cbn [fst snd].
  - destruct (negb _).
    + rewrite bind_run, call_run. cbn [Run.res Run.world Run.calls fst snd].
      destruct (CommitsList _ _ _) as [[cs [e1|]] w'']; cbn [fst snd];
        unfold ret; rewrite !prepend_mk; cbn [Run.res Run.calls app].
      * intros [->|[->|?%elem_of_nil]%elem_of_cons]%elem_of_cons; try done.
        simpl. intros ->. by eexists.
      * intros [->|[->|?%elem_of_nil]%elem_of_cons]%elem_of_cons; done.
    + unfold ret. rewrite prepend_mk. cbn [Run.res Run.calls app].
      intros [->|?%elem_of_nil]%elem_of_cons; done.
  - unfold ret. rewrite prepend_mk. cbn [Run.res Run.calls app].
    intros [->|?%elem_of_nil]%elem_of_cons; done.
Qed.

Lemma postComment_failure g cfg param result isPlan body w c e :
  c ∈ Run.calls (postComment g cfg param result isPlan body w) →
  fails_with e c →
  Run.res (postComment g cfg param result isPlan body w)
  = Some (ParseResult.ExitCode result, Some e).
Proof.
  rewrite postComment_eq. cbv zeta.
  destruct (getEmbeddedComment _ _ _ _ _).2; cbn [Run.res Run.calls].
  - by intros ?%elem_of_nil.
  - intros [->|?%elem_of_nil]%elem_of_cons; [|done]. simpl.
    destruct (Post _ _ _ _).1; [by intros ->|done].
Qed.

Lemma notifyWith_failure g param result template w c e :
  c ∈ Run.calls (notifyWith g param result template w) →
  fails_with e c →
  Run.res (notifyWith g param result template w)
  = Some (ParseResult.ExitCode result, Some e).
Proof.
  rewrite notifyWith_eq. cbv zeta.
  match goal with
  | |- context [Run.res ?l] =>
      match l with
      | (if _ then _ else _) => set (labelled := l)
      end
  end.
  assert (∀ c, c ∈ Run.calls labelled → fails_with e c → False) as Hlab.
  { subst labelled. destruct (_ && _); [|by intros ? ?%elem_of_nil].
    intros c' Hin.
    pose proof (updateLabels_only_label_calls g result w) as Hall.
    rewrite Forall_forall in Hall. specialize (Hall c' Hin).
    by destruct c'. }
  destruct (Run.res labelled) as [errMsgs|].
  2:{ intros Hin Hf. destruct (Hlab _ Hin Hf). }
  rewrite prepend_res, prepend_calls.
  set (value := commonTemplate _ _ _ _).
  intros [[Hin|Hin]%elem_of_app|Hin]%elem_of_app Hf.
  - destruct (Hlab _ Hin Hf).
  - apply list_elem_of_singleton in Hin as ->. simpl in Hf.
    destruct (Template.Execute template value).2; [by subst|done].
  - revert Hin Hf.
    destruct (Template.Execute template value).2; [by intros ?%elem_of_nil|].
    pose proof (resolvePullRequest_failure g (ClientConfig g)
                  (Run.world labelled) c e) as Hres.
    pose proof (resolvePullRequest_commits g (ClientConfig g)
                  (Run.world labelled)) as Hcommits.
    destruct (resolvePullRequest _ _ _) as [[[cfg' [e1|]]|] w' cs];
      cbn [Run.res Run.world Run.calls] in *.
    + intros Hin Hf. destruct (Hres Hin Hf) as [? [= _ ->]]. done.
    + rewrite prepend_res, prepend_calls.
      intros [Hin|Hin]%elem_of_app Hf.
      * by destruct (Hres Hin Hf).
      * by apply (postComment_failure _ _ _ _ _ _ _ c).
    + intros Hin Hf. by destruct (Hres Hin Hf).
Qed.
End Fatal.

(** X9.  An error of the rendering, of the listing of the commits or of
    the post is what [Notify] returns: when a run holds such a call that
    failed with [e], [Notify] returns the exit code of the caller
    together with [e]. *)

Theorem fatal_failures_are_returned
    {W : Type} (g : NotifyService W) (param : ParamExec.t) (w : W)
    (c : Call) (e : error) :
  c ∈ Run.calls (Notify g param w) → fails_with e c →
  Run.res (Notify g param w) = Some (ParamExec.ExitCode param, Some e).
Proof.
  destruct (Notify_cases g param w) as [-> | ->].
  - by intros ?%elem_of_nil.
  - apply notifyWith_failure.
Qed.

Lemma fatal_failures_are_returned_witness :
  Run.res (Notify Fixture.refusedClient (Fixture.param 0) tt)
  = Some (0, Some "403 Resource not accessible by integration").
Proof.
  refine (fatal_failures_are_returned Fixture.refusedClient (Fixture.param 0)
            tt (CommentPost_call _ _ _) _ _ _).
  - vm_compute. apply list_elem_of_further, list_elem_of_here.
  - reflexivity.
Defined.

(** X10.  Only an apply run consults the commits service: when the
    parser is no apply parser, no run of [Notify] calls the commits
    service, and a comment is posted to the pull-request number and the
    revision of the configuration. *)

Theorem plan_comment_goes_to_configured_pull_request
    {W : Type} (g : NotifyService W) (param : ParamExec.t) (w : W) :
  let cfg := ClientConfig g in
  isApplyParser (Config.Parser cfg) = false →
  Forall (fun c =>
            is_commits_call c = false
            ∧ match c with
              | CommentPost_call _ opt _ =>
                  opt = PostOptions.mk (PullRequest.Number (Config.PR cfg))
                                       (PullRequest.Revision (Config.PR cfg))
              | _ => True
              end) (Run.calls (Notify g param w)).
Proof.
  intros cfg Hkind.
  destruct (Notify_cases g param w) as [-> | ->]; [constructor|].
  rewrite notifyWith_eq. fold cfg. cbv zeta.
  match goal with
  | |- context [Run.res ?l] =>
      match l with
      | (if _ then _ else _) => set (labelled := l)
      end
  end.
  assert (Forall (fun c =>
            is_commits_call c = false
            ∧ match c with
              | CommentPost_call _ opt _ =>
                  opt = PostOptions.mk (PullRequest.Number (Config.PR cfg))
                                       (PullRequest.Revision (Config.PR cfg))
              | _ => True
              end) (Run.calls labelled)) as Hlab.
  { subst labelled. destruct (_ && _); [|constructor].
    eapply Forall_impl; [apply updateLabels_only_label_calls|]. by intros []. }
  destruct (Run.res labelled) as [errMsgs|]; [|done].
  rewrite prepend_calls, resolvePullRequest_not_apply by done.
  cbn [Run.res Run.world Run.calls]. rewrite prepend_nil.
  repeat (apply Forall_app; split); [done|by repeat constructor|].
  destruct (Template.Execute _ _).2; [constructor|].
  rewrite postComment_eq. cbv zeta.
  destruct (getEmbeddedComment _ _ _ _ _).2; by repeat constructor.
Qed.

Lemma plan_comment_goes_to_configured_pull_request_witness :
  Forall (fun c =>
            is_commits_call c = false
            ∧ match c with
              | CommentPost_call _ opt _ => opt = PostOptions.mk 42 "abc123"
              | _ => True
              end)
         (Run.calls (Notify (Fixture.planClient Fixture.noChanges)
                            (Fixture.param 0) tt)).
Proof.
  exact (plan_comment_goes_to_configured_pull_request
           (Fixture.planClient Fixture.noChanges) (Fixture.param 0) tt
           eq_refl).
Defined.

(** X11.  In a plan run on a pull request with a result label
    configured, [Notify], unless it returns early, first runs
    [updateLabels] on the parse result and then renders the selected
    template exactly once, whatever messages the reconciliation returned:
    the [ErrorMessages] of the rendered value are those messages, the
    value being the one built from the configuration, the parameters and
    the parse result, and no later call touches the labels.  If the
    reconciliation panics, so does [Notify], with no further call. *)
Theorem label_messages_reach_the_template
    {W : Type} (g : NotifyService W) (param : ParamExec.t) (w : W) :
  let cfg := ClientConfig g in
  let result := parseOutput cfg param in
  let template :=
    if ParseResult.HasParseError result
    then Config.ParseErrorTemplate cfg else Config.Template cfg in
  let labelled := updateLabels g result w in
  isPlanParser (Config.Parser cfg) && PullRequest.IsNumber (Config.PR cfg)
  && ResultLabels.HasAnyLabelDefined (Config.ResultLabels cfg) = true →
  ParseResult.HasParseError result = true
  ∨ (ParseResult.Error result = None ∧ ParseResult.Result result ≠ "") →
  match Run.res labelled with
  | Some errMsgs =>
      ∃ value rest,
        Run.calls (Notify g param w)
        = Run.calls labelled
          ++ Execute_call template value (Template.Execute template value).1
               (Template.Execute template value).2 :: rest
        ∧ CommonTemplate.ErrorMessages value = errMsgs
        ∧ value = commonTemplate cfg param result errMsgs
        ∧ Forall (fun c => is_label_call c = false ∧ is_execute c = false) rest
  | None =>
      Notify g param w
      = Run.mk None (Run.world labelled) (Run.calls labelled)
  end.
Proof.
  intros cfg result template labelled Hon Hgo.
  assert (Notify g param w = notifyWith g param result template w) as ->.
  { unfold Notify. fold cfg result. subst template.
    destruct Hgo as [->|[-> Htext]]; [done|].
    destruct (ParseResult.HasParseError result); [done|].
    by destruct (String.eqb_spec (ParseResult.Result result) ""). }
  rewrite notifyWith_eq. fold cfg. rewrite Hon. fold labelled.
  destruct (Run.res labelled) as [errMsgs|]; [|done].
  cbv zeta. rewrite prepend_calls, <- app_assoc.
  eexists _, _. split; [done|]. split; [done|]. split; [done|].
  destruct (Template.Execute _ _).2; [constructor|].
  pose proof (resolvePullRequest_commits g cfg (Run.world labelled)) as Hc.
  assert (Forall (fun c => is_label_call c = false ∧ is_execute c = false)
                 (Run.calls (resolvePullRequest g cfg (Run.world labelled))))
    as Hc'.
  { eapply Forall_impl; [apply Hc|]. by intros []. }
  destruct (Run.res (resolvePullRequest _ _ _)) as [[cfg' [err|]]|];
    [done| |done].
  rewrite prepend_calls. apply Forall_app. split; [done|].
  eapply Forall_impl; [apply postComment_posts|]. by intros [].
Qed.

Lemma label_messages_reach_the_template_witness :
  let g := Fixture.labelClient Fixture.staleListing Fixture.serverError500 in
  let param := Fixture.param 0 in
  let labelled := updateLabels g (parseOutput (ClientConfig g) param) tt in
  ∃ value rest,
    Run.calls (Notify g param tt)
    = Run.calls labelled
      ++ Execute_call Fixture.template value
           (Template.Execute Fixture.template value).1
           (Template.Execute Fixture.template value).2 :: rest
    ∧ CommonTemplate.ErrorMessages value
      = ["remove labels: 500 Internal Server Error"]
    ∧ value = commonTemplate (ClientConfig g) param
                (parseOutput (ClientConfig g) param)
                ["remove labels: 500 Internal Server Error"]
    ∧ Forall (fun c => is_label_call c = false ∧ is_execute c = false) rest.
Proof.
  intros g param labelled.
  refine (label_messages_reach_the_template g param tt eq_refl _).
  right. split; [reflexivity|discriminate].
Defined.

(** ** The data of the embedded comment *)

Lemma embeddedVars_fold (vars : gmap string string) (names : list string)
    (acc : gmap string string) (name : string) :
  foldl (fun acc name => <[name := default "" (vars !! name)]> acc) acc names
    !! name
  = if bool_decide (name ∈ names) then Some (default "" (vars !! name))
    else acc !! name.
Proof.
  revert acc. induction names as [|k names IH]; intros acc; simpl; [done|].
  rewrite IH. destruct (decide (name = k)) as [->|Hne].
  - rewrite lookup_insert_eq, (bool_decide_true (k ∈ k :: names)) by by left.
    by destruct (bool_decide _).
  - rewrite lookup_insert_ne by done.
    destruct (bool_decide (name ∈ names)) eqn:Hin.
    + apply bool_decide_eq_true in Hin.
      rewrite bool_decide_true; [done|by right].
    + apply bool_decide_eq_false in Hin.
      rewrite bool_decide_false; [done|].
      by intros [?|?]%elem_of_cons.
Qed.

(** X12.  The variables of the embedded comment are those named by
    [EmbeddedVarNames], no other: a named variable has its value of
    [Vars], the empty string when [Vars] has none, and a name that is
    not listed is absent. *)

Theorem embedded_vars_are_the_named_ones (cfg : Config.t) (name : string) :
  embeddedVars cfg !! name
  = if bool_decide (name ∈ Config.EmbeddedVarNames cfg)
    then Some (default "" (Config.Vars cfg !! name))
    else None.
Proof.
  unfold embeddedVars. rewrite embeddedVars_fold.
  by destruct (bool_decide _).
Qed.

(** X13.  The data that [getEmbeddedComment] hands to the metadata
    library: the program "tfcmt", the embedded variables, the revision
    and the pull-request number of the configuration, the command,
    "plan" for a plan and "apply" otherwise, and the target, present
    exactly when the variable "target" is set to a text that is not
    empty; it has no other key. *)

Theorem embedded_data_fields (cfg : Config.t) (isPlan : bool) :
  let data := embeddedData cfg isPlan in
  let target := default "" (Config.Vars cfg !! "target") in
  data !! "Program" = Some (VString "tfcmt")
  ∧ data !! "Vars" = Some (VVars (embeddedVars cfg))
  ∧ data !! "SHA1" = Some (VString (PullRequest.Revision (Config.PR cfg)))
  ∧ data !! "PRNumber" = Some (VInt (PullRequest.Number (Config.PR cfg)))
  ∧ data !! "Command" = Some (VString (if isPlan then "plan" else "apply"))
  ∧ data !! "Target"
    = (if String.eqb target "" then None else Some (VString target))
  ∧ ∀ key,
      key ∉ ["Program"; "Vars"; "SHA1"; "PRNumber"; "Command"; "Target"] →
      data !! key = None.
Proof.
  intros data target. subst data. unfold embeddedData. fold target.
  repeat split;
    try (destruct (String.eqb target ""), isPlan;
         rewrite ?lookup_insert_eq, ?lookup_insert_ne by done;
         rewrite ?lookup_insert_eq, ?lookup_insert_ne by done;
         rewrite ?lookup_insert_eq, ?lookup_insert_ne by done;
         rewrite ?lookup_insert_eq, ?lookup_insert_ne by done;
         rewrite ?lookup_insert_eq, ?lookup_insert_ne by done;
         rewrite ?lookup_insert_eq, ?lookup_insert_ne by done;
         done).
  intros key Hkey.
  repeat (apply not_elem_of_cons in Hkey as [? Hkey]).
  destruct (String.eqb target ""), isPlan;
    rewrite ?lookup_insert_ne by done; done.
Qed.

(** ** The embedded comment of the post *)

Section Marker.
Context {W : Type}.
Implicit Types (g : NotifyService W) (w : W).

Lemma notifyWith_marker g param result template w :
  let cfg := ClientConfig g in
  let isPlan := isPlanParser (Config.Parser cfg) in
  Forall (fun c =>
            match c with
            | CommentPost_call body opt _ =>
                ∃ rendered cfg' w',
                  let marker :=
                    getEmbeddedComment (metadata g) cfg'
                      (ParamExec.CIName param) isPlan w' in
                  marker.2 = None
                  ∧ body = rendered +:+ marker.1
                  ∧ opt = PostOptions.mk (PullRequest.Number (Config.PR cfg'))
                                         (PullRequest.Revision (Config.PR cfg'))
            | _ => True
            end) (Run.calls (notifyWith g param result template w)).
Proof.
  intros cfg isPlan. rewrite notifyWith_eq. fold cfg isPlan. cbv zeta.
  match goal with
  | |- context [Run.res ?l] =>
      match l with
      | (if _ then _ else _) => set (labelled := l)
      end
  end.
  assert (∀ P : Call → Prop,
            (∀ c, is_label_call c = true → P c) →
            Forall P (Run.calls labelled)) as Hlab.
  { intros P HP. subst labelled. destruct (_ && _); [|constructor].
    eapply Forall_impl; [apply updateLabels_only_label_calls|]. done. }
  destruct (Run.res labelled) as [errMsgs|];
    [|apply Hlab; by intros []].
  rewrite prepend_calls.
  repeat (apply Forall_app; split);
    [apply Hlab; by intros []|by repeat constructor|].
  destruct (Template.Execute _ _) as [rendered [e|]]; cbn [fst snd];
    [constructor|].
  pose proof (resolvePullRequest_commits g cfg (Run.world labelled)) as Hc.
  destruct (resolvePullRequest _ _ _) as [[[cfg' [e|]]|] w' cs];
    cbn [Run.res Run.world Run.calls] in *;
    try (eapply Forall_impl; [apply Hc|]; by intros []).
  rewrite prepend_calls. apply Forall_app. split.
  { eapply Forall_impl; [apply Hc|]. by intros []. }
  rewrite postComment_eq. cbv zeta.
  destruct (getEmbeddedComment _ _ _ _ _) as [marker [e|]] eqn:Hmarker;
    cbn [fst snd Run.calls]; [constructor|].
  constructor; [|constructor].
  exists rendered, cfg', w'. cbv zeta. rewrite Hmarker. done.
Qed.
End Marker.

(** X14.  The embedded comment and the address of a post agree: the
    body of every post of [Notify] is a rendered text followed by the
    embedded comment that [getEmbeddedComment] built without error from
    some configuration, for a plan exactly when the parser is the plan
    parser, and the post is addressed to the pull-request number and the
    revision of that same configuration. *)

Theorem marker_matches_post_target
    {W : Type} (g : NotifyService W) (param : ParamExec.t) (w : W) :
  let cfg := ClientConfig g in
  let isPlan := isPlanParser (Config.Parser cfg) in
  Forall (fun c =>
            match c with
            | CommentPost_call body opt _ =>
                ∃ rendered cfg' w',
                  let marker :=
                    getEmbeddedComment (metadata g) cfg'
                      (ParamExec.CIName param) isPlan w' in
                  marker.2 = None
                  ∧ body = rendered +:+ marker.1
                  ∧ opt = PostOptions.mk (PullRequest.Number (Config.PR cfg'))
                                         (PullRequest.Revision (Config.PR cfg'))
            | _ => True
            end) (Run.calls (Notify g param w)).
Proof.
  intros cfg isPlan.
  destruct (Notify_cases g param w) as [-> | ->]; [constructor|].
  apply notifyWith_marker.
Qed.

(** X15.  Without its embedded comment nothing is posted.  In a run
    of [Notify] that does not return early, whose labelling returned,
    whose rendering gave no error and whose apply block gave the
    configuration [cfg'], when the call of [getEmbeddedComment] of that
    run, on [cfg'] and in the world the apply block left, fails with
    [e], [Notify] returns the exit code of the caller together with
    [e]; its calls are those made so far and none is a post. *)
Theorem marker_failure_is_fatal
    {W : Type} (g : NotifyService W) (param : ParamExec.t) (w : W)
    (errMsgs : list string) (rendered : string) (cfg' : Config.t)
    (e : error) :
  let cfg := ClientConfig g in
  let result := parseOutput cfg param in
  let template :=
    if ParseResult.HasParseError result
    then Config.ParseErrorTemplate cfg else Config.Template cfg in
  let isPlan := isPlanParser (Config.Parser cfg) in
  let labelled :=
    if isPlan && PullRequest.IsNumber (Config.PR cfg)
       && ResultLabels.HasAnyLabelDefined (Config.ResultLabels cfg)
    then updateLabels g result w else Run.mk (Some []) w [] in
  let value := commonTemplate cfg param result errMsgs in
  let resolved := resolvePullRequest g cfg (Run.world labelled) in
  ParseResult.HasParseError result = true
  ∨ (ParseResult.Error result = None ∧ ParseResult.Result result ≠ "") →
  Run.res labelled = Some errMsgs →
  Template.Execute template value = (rendered, None) →
  Run.res resolved = Some (cfg', None) →
  (getEmbeddedComment (metadata g) cfg' (ParamExec.CIName param) isPlan
                      (Run.world resolved)).2 = Some e →
  Notify g param w
  = Run.mk (Some (ParamExec.ExitCode param, Some e)) (Run.world resolved)
           (Run.calls labelled
            ++ Execute_call template value rendered None
               :: Run.calls resolved)
  ∧ Forall (fun c => is_post c = false) (Run.calls (Notify g param w)).
Proof.
  intros cfg result template isPlan labelled value resolved Hgo Hlabelled
         Hrendered Hresolved Hmarker.
  assert (Notify g param w = notifyWith g param result template w) as Hrun.
  { unfold Notify. fold cfg result. subst template.
    destruct Hgo as [->|[-> Htext]]; [done|].
    destruct (ParseResult.HasParseError result); [done|].
    by destruct (String.eqb_spec (ParseResult.Result result) ""). }
  assert (Notify g param w
          = Run.mk (Some (ParamExec.ExitCode param, Some e))
                   (Run.world resolved)
                   (Run.calls labelled
                    ++ Execute_call template value rendered None
                       :: Run.calls resolved)) as Heq.
  { rewrite Hrun, notifyWith_eq. fold cfg isPlan labelled.
    rewrite Hlabelled. cbv zeta. fold value. rewrite Hrendered.
    cbn [fst snd]. fold resolved. rewrite Hresolved.
    rewrite postComment_eq. cbv zeta. rewrite Hmarker.
    by rewrite !prepend_mk, app_nil_r, <- app_assoc. }
  split; [exact Heq|]. rewrite Heq. cbn [Run.calls].
  apply Forall_app. split.
  - subst labelled. destruct (_ && _); [|constructor].
    eapply Forall_impl; [apply updateLabels_label_calls|]. by intros ? [??].
  - constructor; [done|].
    eapply Forall_impl; [apply resolvePullRequest_commits|]. by intros [].
Qed.

Lemma marker_failure_is_fatal_witness :
  let g := Fixture.strictClient in
  let param := Fixture.paramOn "drone" 0 in
  let body := "## Plan result: No changes. Infrastructure is up-to-date." in
  Notify g param tt
  = Run.mk (Some (0, Some "unsupported CI platform")) tt
      [Execute_call Fixture.template
         (commonTemplate (ClientConfig g) param
            (parseOutput (ClientConfig g) param) []) body None]
  ∧ Forall (fun c => is_post c = false) (Run.calls (Notify g param tt)).
Proof.
  intros g param body.
  refine (marker_failure_is_fatal g param tt [] body (ClientConfig g)
            "unsupported CI platform" _ eq_refl eq_refl eq_refl eq_refl).
  right. split; [reflexivity|discriminate].
Defined.

(** ** The color updates of a reconciliation *)

Section ColorUpdates.
Context {W : Type}.
Implicit Types (g : NotifyService W) (w : W).

Lemma filter_all {A} (f : A → bool) (l : list A) :
  Forall (fun x => f x = true) l → List.filter f l = l.
Proof.
  induction 1 as [|x l Hx _ IH]; [done|]. simpl. by rewrite Hx, IH.
Qed.

Lemma filter_none {A} (f : A → bool) (l : list A) :
  Forall (fun x => f x = false) l → List.filter f l = [].
Proof.
  induction 1 as [|x l Hx _ IH]; [done|]. simpl. by rewrite Hx, IH.
Qed.

Lemma setColorLoop_count g labels labelToAdd labelColor errMsgs w :
  length (Run.calls (setColorLoop g labels labelToAdd labelColor errMsgs w))
  = length (List.filter (needs_color labelToAdd labelColor) labels).
Proof.
  revert errMsgs w.
  induction labels as [|l rest IH]; intros errMsgs w; [done|]. simpl.
  unfold needs_color at 1.
  destruct (_ && _); [|apply IH].
  rewrite bind_calls, length_app.
  destruct (updateLabelColor_calls g labelToAdd labelColor errMsgs w)
    as [err ->].
  destruct (updateLabelColor_res g labelToAdd labelColor errMsgs w)
    as [msgs ->].
  simpl. by rewrite IH.
Qed.

Lemma ensureLabel_updates g labelToAdd labelColor current errMsgs w :
  let calls :=
    Run.calls (ensureLabel g labelToAdd labelColor current errMsgs w) in
  match List.filter is_add calls with
  | IssuesAddLabels_call _ _ ls _ :: _ =>
      length (List.filter is_update calls)
      = if String.eqb labelColor "" then 0%nat
        else length (List.filter (needs_color labelToAdd labelColor) ls)
  | _ =>
      (length (List.filter is_update calls) ≤ 1)%nat
      ∧ (labelColor = "" → List.filter is_update calls = [])
  end.
Proof.
  intros calls. subst calls. unfold ensureLabel.
  destruct (String.eqb labelToAdd "").
  { simpl. split; [lia|done]. }
  destruct (String.eqb current "").
  - rewrite bind_calls, call_calls, call_res, call_world.
    cbn [fst snd app List.filter is_add].
    destruct (String.eqb_spec labelColor ""); cbn [negb].
    + done.
    + simpl. rewrite filter_all; [apply setColorLoop_count|].
      eapply Forall_impl; [apply setColorLoop_calls|]. by intros ? [? ->].
  - destruct (String.eqb_spec labelColor "") as [->|Hcolor]; cbn [negb andb].
    { simpl. split; [lia|done]. }
    destruct (negb _).
    + destruct (updateLabelColor_calls g labelToAdd labelColor errMsgs w)
        as [err ->].
      simpl. split; [lia|done].
    + simpl. split; [lia|done].
Qed.
End ColorUpdates.

(** X16.  The color updates follow the answer to the add.  In a run of
    [updateLabels] that adds the chosen label, the number of color
    updates is the number of labels in the answer to the add that bear
    the chosen name with another color than the configured one, and
    zero when no color is configured.  A run that does not add makes at
    most one color update, and none when no color is configured. *)

Theorem color_updates_follow_the_add
    {W : Type} (g : NotifyService W) (result : ParseResult.t) (w : W) :
  let rl := Config.ResultLabels (ClientConfig g) in
  let labelToAdd := (labelDecision rl result).1 in
  let labelColor := (labelDecision rl result).2 in
  let calls := Run.calls (updateLabels g result w) in
  match List.filter is_add calls with
  | IssuesAddLabels_call _ _ ls _ :: _ =>
      length (List.filter is_update calls)
      = if String.eqb labelColor "" then 0%nat
        else length (List.filter (needs_color labelToAdd labelColor) ls)
  | _ =>
      (length (List.filter is_update calls) ≤ 1)%nat
      ∧ (labelColor = "" → List.filter is_update calls = [])
  end.
Proof.
  intros rl labelToAdd labelColor calls. subst calls.
  assert (∀ pre rest,
            Forall (fun c => is_add c = false ∧ is_update c = false) pre →
            List.filter is_add (pre ++ rest) = List.filter is_add rest
            ∧ List.filter is_update (pre ++ rest) = List.filter is_update rest)
    as Hpre.
  { intros pre rest H. rewrite !List.filter_app.
    rewrite (filter_none is_add pre), (filter_none is_update pre); [done| |];
      eapply Forall_impl; try apply H; by intros ? [??]. }
  rewrite updateLabels_run. fold rl labelToAdd labelColor.
  destruct (IssuesListLabels _ _ _) as [[labels [e|]] w']; cbn [fst snd].
  - rewrite prepend_calls.
    destruct (Hpre [IssuesListLabels_call
                      (PullRequest.Number (Config.PR (ClientConfig g)))
                      labels (Some e)]
                (Run.calls (ensureLabel g labelToAdd labelColor ""
                              ["remove labels: " +:+ e] w')))
      as [-> ->]; [by repeat constructor|].
    apply ensureLabel_updates.
  - pose proof (removeLoop_calls g labels labelToAdd "" w') as Hloop.
    assert (Forall (fun c => is_add c = false ∧ is_update c = false)
              (IssuesListLabels_call
                 (PullRequest.Number (Config.PR (ClientConfig g))) labels None
               :: Run.calls (removeLoop g labels labelToAdd "" w'))) as Hhead.
    { constructor; [done|]. eapply Forall_impl; [apply Hloop|]. by intros []. }
    destruct (Run.res (removeLoop _ _ _ _ _)) as [[color err]|].
    + rewrite prepend_calls.
      match goal with
      | |- context [ensureLabel ?g ?a ?b ?c ?m ?w0] =>
          destruct (Hpre _ (Run.calls (ensureLabel g a b c m w0)) Hhead)
            as [-> ->];
          apply ensureLabel_updates
      end.
    + cbn [Run.calls].
      destruct (Hpre _ [] Hhead) as [Ha Hu]. rewrite app_nil_r in Ha, Hu.
      rewrite Ha, Hu. simpl. split; [lia|done].
Qed.

(** ** The value given to the template *)

(** X17.  What the template is given.  Every rendering of a run of
    [Notify] is given a value whose fields are: the result text, the
    changed result, the changes outside Terraform, the warning, the
    destroy flag and the four resource lists of what the parser made of
    the combined output; the CI link, the raw-output flag, the variables
    and the templates of the configuration; the standard output, the
    standard error, the combined output and the exit code of the
    caller.  Its error messages are those that [updateLabels] returned
    in a plan run on a pull request with a result label configured, and
    none otherwise. *)
Theorem rendered_value_is_built_from_the_inputs
    {W : Type} (g : NotifyService W) (param : ParamExec.t) (w : W) :
  let cfg := ClientConfig g in
  let parsed :=
    Parser.Parse (Config.Parser cfg) (ParamExec.CombinedOutput param) in
  let labelling :=
    isPlanParser (Config.Parser cfg) && PullRequest.IsNumber (Config.PR cfg)
    && ResultLabels.HasAnyLabelDefined (Config.ResultLabels cfg) in
  Forall (fun c =>
            match c with
            | Execute_call _ value _ _ =>
                CommonTemplate.Result value = ParseResult.Result parsed
                ∧ CommonTemplate.ChangedResult value
                  = ParseResult.ChangedResult parsed
                ∧ CommonTemplate.ChangeOutsideTerraform value
                  = ParseResult.OutsideTerraform parsed
                ∧ CommonTemplate.Warning value = ParseResult.Warning parsed
                ∧ CommonTemplate.HasDestroy value
                  = ParseResult.HasDestroy parsed
                ∧ CommonTemplate.Link value = Config.CI cfg
                ∧ CommonTemplate.UseRawOutput value = Config.UseRawOutput cfg
                ∧ CommonTemplate.Vars value = Config.Vars cfg
                ∧ CommonTemplate.Templates value = Config.Templates cfg
                ∧ CommonTemplate.Stdout value = ParamExec.Stdout param
                ∧ CommonTemplate.Stderr value = ParamExec.Stderr param
                ∧ CommonTemplate.CombinedOutput value
                  = ParamExec.CombinedOutput param
                ∧ CommonTemplate.ExitCode value = ParamExec.ExitCode param
                ∧ CommonTemplate.CreatedResources value
                  = ParseResult.CreatedResources parsed
                ∧ CommonTemplate.UpdatedResources value
                  = ParseResult.UpdatedResources parsed
                ∧ CommonTemplate.DeletedResources value
                  = ParseResult.DeletedResources parsed
                ∧ CommonTemplate.ReplacedResources value
                  = ParseResult.ReplacedResources parsed
                ∧ if labelling
                  then Run.res (updateLabels g (parseOutput cfg param) w)
                       = Some (CommonTemplate.ErrorMessages value)
                  else CommonTemplate.ErrorMessages value = []
            | _ => True
            end) (Run.calls (Notify g param w)).
Proof.
  intros cfg parsed labelling.
  destruct (Notify_cases g param w) as [-> | ->]; [constructor|].
  fold cfg. rewrite notifyWith_eq. fold cfg labelling. cbv zeta.
  change (parseOutput cfg param)
    with (ParseResult.setExitCode parsed (ParamExec.ExitCode param)).
  set (result := ParseResult.setExitCode parsed (ParamExec.ExitCode param)).
  match goal with
  | |- context [Run.res ?l] =>
      match l with
      | (if _ then _ else _) => set (labelled := l)
      end
  end.
  assert (Forall (fun c => is_execute c = false) (Run.calls labelled)) as Hlab.
  { subst labelled. destruct labelling; [|constructor].
    eapply Forall_impl; [apply updateLabels_only_label_calls|]. by intros []. }
  destruct (Run.res labelled) as [errMsgs|] eqn:Hres.
  2:{ eapply Forall_impl; [apply Hlab|]. by intros []. }
  rewrite prepend_calls.
  repeat (apply Forall_app; split).
  - eapply Forall_impl; [apply Hlab|]. by intros [].
  - constructor; [|constructor]. repeat (split; [done|]).
    cbn [CommonTemplate.ErrorMessages commonTemplate].
    subst labelled. destruct labelling; [done|]. by injection Hres as <-.
  - destruct (Template.Execute _ _).2; [constructor|].
    pose proof (resolvePullRequest_commits g cfg (Run.world labelled)) as Hc.
    destruct (Run.res (resolvePullRequest _ _ _)) as [[cfg' [err|]]|];
      try (eapply Forall_impl; [apply Hc|]; by intros []).
    rewrite prepend_calls. apply Forall_app. split.
    + eapply Forall_impl; [apply Hc|]. by intros [].
    + eapply Forall_impl; [apply postComment_posts|]. by intros [].
Qed.
